(** * PathAIA [pathaia/util/management.py]: dataset assembly over a project

    A shallow embedding of the five operations of the module
    ([get_patch_csv_from_patch_folder], [get_patch_folders_in_project],
    [get_slide_file], [handle_labeled_patches] and
    [PathaiaHandler.list_patches]) together with the parts of the Python
    runtime they call: string tests, [os.path], the directory tree and the
    table returned by [pandas.read_csv].

    Exceptions are values of [exn]; a function that returns or raises has
    type [result _]; a generator is the finite trace of the items it yields
    followed by the exception that ended it, if any. *)

From Stdlib Require Import String Ascii List ZArith Bool Lia.
From Stdlib Require SpecFloat.
Import ListNotations.

Local Open Scope string_scope.
Local Open Scope list_scope.

(* ================================================================== *)
(** ** Python strings *)

Module Str.

(** [s.startswith(p)] *)
Definition startswith (s p : string) : bool := String.prefix p s.

(** [s.endswith(p)]: the last [len(p)] characters of [s] are [p]. *)
Definition endswith (s p : string) : bool :=
  (String.length p <=? String.length s)%nat
  && String.eqb
       (String.substring (String.length s - String.length p)
          (String.length p) s) p.

(** [sub in s]: [sub] occurs at some position of [s]. *)
Fixpoint contains (sub s : string) : bool :=
  match s with
  | EmptyString => String.prefix sub EmptyString
  | String _ rest => String.prefix sub s || contains sub rest
  end.

(** [s.rfind(c)] for a one-character [c]: the highest index of [c] in
    [s], or [-1]. *)
Fixpoint rfind_from (c : ascii) (s : string) (i last : Z) : Z :=
  match s with
  | EmptyString => last
  | String a rest =>
      rfind_from c rest (i + 1) (if Ascii.eqb a c then i else last)
  end.

Definition rfind (s : string) (c : ascii) : Z := rfind_from c s 0 (-1).

(** The slices [s[:i]] and [s[i:]] for [0 <= i]. *)
Definition slice_to (s : string) (i : Z) : string :=
  String.substring 0 (Z.to_nat i) s.

Definition slice_from (s : string) (i : Z) : string :=
  String.substring (Z.to_nat i) (String.length s - Z.to_nat i) s.

End Str.

(* ================================================================== *)
(** ** [os.path] (POSIX flavour) *)

Module OsPath.

Definition sep : ascii := "/"%char.
Definition extsep : ascii := "."%char.

(** [os.path.join(a, b)]: an absolute [b] replaces [a]; otherwise the two
    are glued with exactly one separator between them. *)
Definition join (a b : string) : string :=
  if Str.startswith b (String sep EmptyString) then b
  else if String.eqb a EmptyString
          || Str.endswith a (String sep EmptyString)
       then a ++ b
       else a ++ String sep b.

(** The loop of [genericpath._splitext] that skips the leading dots of
    the file name: [true] as soon as a character that is not a dot is
    met at an index in [filenameIndex, filenameIndex + todo). *)
Fixpoint has_non_dot (p : string) (filenameIndex todo : nat) : bool :=
  match todo with
  | O => false
  | S todo' =>
      match String.get filenameIndex p with
      | Some c =>
          if Ascii.eqb c extsep
          then has_non_dot p (S filenameIndex) todo'
          else true
      | None => true
      end
  end.

(** [os.path.splitext(p)]: split at the last dot of the last path
    component, unless that component consists of leading dots only up to
    that dot. *)
Definition splitext (p : string) : string * string :=
  let sepIndex := Str.rfind p sep in
  let dotIndex := Str.rfind p extsep in
  if (sepIndex <? dotIndex)%Z
     && has_non_dot p (Z.to_nat (sepIndex + 1))
          (Z.to_nat (dotIndex - (sepIndex + 1)))
  then (Str.slice_to p dotIndex, Str.slice_from p dotIndex)
  else (p, EmptyString).

End OsPath.

(* ================================================================== *)
(** ** Exceptions, results and generators *)

(** The error classes declared by the module, and the two foreign
    exceptions its operations can let through: [KeyError] from a missing
    column of a table or of a row, and whatever [pandas.read_csv] raises on
    a file it cannot read. *)
Inductive exn : Type :=
| LevelNotFoundError (msg : string)
| EmptyProjectError (msg : string)
| SlideNotFoundError (msg : string)
| PatchesNotFoundError (msg : string)
| UnknownColumnError (msg : string)
| KeyError (key : string)
| ReadCsvError (path : string).

(** [str(e)].  The module takes it of the errors it catches only; for a
    failed read the text is that of pandas, for which the path stands. *)
Definition str (e : exn) : string :=
  match e with
  | LevelNotFoundError msg | EmptyProjectError msg | SlideNotFoundError msg
  | PatchesNotFoundError msg | UnknownColumnError msg => msg
  | KeyError key => "'" ++ key ++ "'"
  | ReadCsvError path => path
  end.

Inductive result (A : Type) : Type :=
| Return (a : A)
| Raise (e : exn).
Arguments Return {A} a.
Arguments Raise {A} e.

Definition bind {A B : Type} (r : result A) (k : A -> result B) : result B :=
  match r with
  | Return a => k a
  | Raise e => Raise e
  end.

Notation "x <- r ;; k" := (bind r (fun x => k))
  (at level 61, r at next level, right associativity).

(** A generator run to exhaustion: the items it yielded, in order, and the
    exception that stopped it ([None] when it returned normally). *)
Record gen (A : Type) : Type := Gen {
  yielded : list A;
  raised : option exn
}.
Arguments Gen {A} yielded raised.
Arguments yielded {A} g.
Arguments raised {A} g.

(** [for x in xs: body] over a list, threading the state of the enclosing
    function; an exception raised by the body leaves the loop at once. *)
Fixpoint for_each {A S : Type} (body : A -> S -> S * option exn)
    (xs : list A) (st : S) : S * option exn :=
  match xs with
  | [] => (st, None)
  | x :: rest =>
      match body x st with
      | (st', None) => for_each body rest st'
      | (st', Some e) => (st', Some e)
      end
  end.

(** [for x in g: body] over a generator: the body runs on every item the
    generator yielded, then the exception of the generator, if any,
    surfaces in the loop header. *)
Definition for_gen {A S : Type} (g : gen A)
    (body : A -> S -> S * option exn) (st : S) : S * option exn :=
  match for_each body (yielded g) st with
  | (st', None) => (st', raised g)
  | (st', Some e) => (st', Some e)
  end.

(* ================================================================== *)
(** ** Tables as read by pandas *)

(** A cell of a table: an integer, a binary64 float, a boolean, a text,
    or the missing value ([nan]). *)
Inductive value : Type :=
| VInt (z : Z)
| VFloat (f : SpecFloat.spec_float)
| VBool (b : bool)
| VStr (s : string)
| VNaN.

(** The dtypes [read_csv] gives to the columns of a table. *)
Inductive dtype : Type := Int64 | UInt64 | Float64 | Bool | Object.

(** A [DataFrame]: the column labels of the header, the dtype of each
    column, and the rows in file order.  The cell of a row under the
    [i]-th label is its [i]-th element, a row that is too short reading
    as missing there. *)
Record DataFrame : Type := {
  columns : list string;
  dtypes : list dtype;
  rows : list (list value)
}.

Module Pandas.

(** The float64 nearest to an integer, ties to even: the conversion of
    an integer that numpy and Python make. *)
Definition float64_of_int (z : Z) : SpecFloat.spec_float :=
  SpecFloat.binary_normalize 53 1024 z 0 false.

(** [value == level] for an integer [level], as the comparison of a
    column with [level] finds it: an integer cell is compared as it is, a
    float cell with the level converted to float64, a boolean cell as 1
    or 0; a text and the missing value equal no level. *)
Definition eq_int (v : value) (level : Z) : bool :=
  match v with
  | VInt z => (z =? level)%Z
  | VFloat f => SpecFloat.SFeqb f (float64_of_int level)
  | VBool b => (Z.b2z b =? level)%Z
  | _ => false
  end.

Fixpoint index_of (c : string) (cols : list string) : option nat :=
  match cols with
  | [] => None
  | c' :: rest =>
      if String.eqb c c' then Some O
      else option_map S (index_of c rest)
  end.

(** [row[c]] for a row of a frame whose labels are [cols]. *)
Definition cell (cols : list string) (row : list value) (c : string)
  : result value :=
  match index_of c cols with
  | Some i => Return (nth i row VNaN)
  | None => Raise (KeyError c)
  end.

(** [c in df] *)
Definition has_column (df : DataFrame) (c : string) : bool :=
  existsb (String.eqb c) (columns df).

(** [df[c]]: the column as a series, one value per row. *)
Definition getitem (df : DataFrame) (c : string) : result (list value) :=
  match index_of c (columns df) with
  | Some i => Return (map (fun row => nth i row VNaN) (rows df))
  | None => Raise (KeyError c)
  end.

(** [series == level]: the boolean mask. *)
Definition series_eq (s : list value) (level : Z) : list bool :=
  map (fun v => eq_int v level) s.

Fixpoint select {A : Type} (xs : list A) (mask : list bool) : list A :=
  match xs, mask with
  | x :: xs', b :: mask' =>
      if b then x :: select xs' mask' else select xs' mask'
  | _, _ => []
  end.

(** [df[mask]]: the rows under a [True] of the mask, same columns and
    dtypes. *)
Definition getitem_mask (df : DataFrame) (mask : list bool) : DataFrame :=
  {| columns := columns df; dtypes := dtypes df;
     rows := select (rows df) mask |}.

(** [df[df["level"] == level]] *)
Definition level_filter (df : DataFrame) (level : Z) : result DataFrame :=
  s <- getitem df "level" ;;
  Return (getitem_mask df (series_eq s level)).

Definition dtype_eqb (a b : dtype) : bool :=
  match a, b with
  | Int64, Int64 | UInt64, UInt64 | Float64, Float64 | Bool, Bool
  | Object, Object => true
  | _, _ => false
  end.

(** The integer and float dtypes; pandas does not mix booleans with
    them. *)
Definition is_numeric (d : dtype) : bool :=
  match d with
  | Int64 | UInt64 | Float64 => true
  | Bool | Object => false
  end.

(** The dtype of [df.values], the array the rows are cut from: the dtype
    of the columns when they all have the same, float64 when they are all
    integer or float columns but differ (an empty frame gives float64 as
    well), object otherwise. *)
Definition values_dtype (ds : list dtype) : dtype :=
  match ds with
  | [] => Float64
  | d :: rest =>
      if forallb (dtype_eqb d) rest then d
      else if forallb is_numeric ds then Float64
      else Object
  end.

(** A cell brought to the dtype of the array: an integer becomes the
    nearest float64 in a float64 array; nothing else changes. *)
Definition astype (d : dtype) (v : value) : value :=
  match d, v with
  | Float64, VInt z => VFloat (float64_of_int z)
  | _, _ => v
  end.

(** [df.iterrows()]: the rows, in order, each as a series with the
    columns of [df] for index and the dtype of [df.values], to which its
    cells were brought. *)
Definition iterrows (df : DataFrame) : list (list value) :=
  map (map (astype (values_dtype (dtypes df)))) (rows df).

End Pandas.

(* ================================================================== *)
(** ** The directory tree and the table files *)

(** What the module observes of its environment: [os.path.isdir],
    [os.path.exists], [os.listdir] (in listing order) and
    [pandas.read_csv], which gives [None] where pandas raises. *)
Record filesystem : Type := {
  isdir : string -> bool;
  exists_ : string -> bool;
  listdir : string -> list string;
  read_csv : string -> option DataFrame
}.

(* ================================================================== *)
(** ** [pathaia.util.management] *)

(** A patch descriptor, the dictionary appended by [list_patches]. *)
Record patch : Type := {
  slide : string;
  x : value;
  y : value;
  level : Z;
  dimensions : Z * Z
}.

Record PathaiaHandler : Type := {
  slide_folder : string;
  project_folder : string
}.

(** The locals of [list_patches] and the warnings issued so far. *)
Record frame : Type := {
  patch_list : list patch;
  labels : list value;
  warned : list string
}.

Definition default_exclude : list string := ["annotation"].

Section Management.

Variable fs : filesystem.

Definition get_patch_csv_from_patch_folder (patch_folder : string)
  : result string :=
  if isdir fs patch_folder then
    let patch_file := OsPath.join patch_folder "patches.csv" in
    if exists_ fs patch_file then Return patch_file
    else Raise (PatchesNotFoundError
           ("Could not find extracted patches for the slide: "
              ++ patch_folder))
  else Raise (SlideNotFoundError
         ("Could not find a patch folder at: " ++ patch_folder ++ "!!!")).

(** The inner loop of the walker: [keep] after all of [exclude] has been
    tried on [name]. *)
Definition keep_name (exclude : list string) (name : string) : bool :=
  fold_left
    (fun keep ex => if Str.contains ex name then false else keep)
    exclude true.

(** The outer loop of the walker over a directory listing. *)
Fixpoint walk (project_folder : string) (exclude : list string)
    (names : list string) : list (string * string) :=
  match names with
  | [] => []
  | name :: rest =>
      if keep_name exclude name then
        let patch_folder := OsPath.join project_folder name in
        if isdir fs patch_folder
        then (name, patch_folder) :: walk project_folder exclude rest
        else walk project_folder exclude rest
      else walk project_folder exclude rest
  end.

Definition get_patch_folders_in_project (project_folder : string)
    (exclude : list string) : gen (string * string) :=
  if negb (isdir fs project_folder) then
    Gen [] (Some (EmptyProjectError
                    ("Did not find any project at: " ++ project_folder)))
  else Gen (walk project_folder exclude (listdir fs project_folder)) None.

(** The test of [get_slide_file] on one directory entry. *)
Definition slide_match (slide_name name : string) : bool :=
  Str.endswith name ".mrxs"
  && negb (Str.startswith name ".")
  && String.eqb slide_name (fst (OsPath.splitext name)).

Fixpoint first_slide (slide_folder slide_name : string)
    (names : list string) : option string :=
  match names with
  | [] => None
  | name :: rest =>
      if slide_match slide_name name
      then Some (OsPath.join slide_folder name)
      else first_slide slide_folder slide_name rest
  end.

Definition get_slide_file (slide_folder slide_name : string)
  : result string :=
  if negb (isdir fs slide_folder) then
    Raise (SlideNotFoundError
             ("Could not find a slide folder at: " ++ slide_folder ++ "!!!"))
  else
    match first_slide slide_folder slide_name (listdir fs slide_folder) with
    | Some path => Return path
    | None =>
        Raise (SlideNotFoundError
                 ("Could not find an mrxs slide file for: " ++ slide_name
                    ++ " in " ++ slide_folder ++ "!!!"))
    end.

(** The body of the last loop of [handle_labeled_patches]: the triple
    read from one row, its three look-ups in source order. *)
Definition row_triple (cols : list string) (column : string)
    (row : list value) : result (value * value * value) :=
  vx <- Pandas.cell cols row "x" ;;
  vy <- Pandas.cell cols row "y" ;;
  lab <- Pandas.cell cols row column ;;
  Return (vx, vy, lab).

(** The last loop of [handle_labeled_patches], over the row series that
    [iterrows] hands over: it yields a triple per series and stops at the
    first look-up that fails. *)
Fixpoint iter_rows (cols : list string) (column : string)
    (rs : list (list value)) : gen (value * value * value) :=
  match rs with
  | [] => Gen [] None
  | row :: rest =>
      match row_triple cols column row with
      | Raise e => Gen [] (Some e)
      | Return t =>
          let g := iter_rows cols column rest in
          Gen (t :: yielded g) (raised g)
      end
  end.

Definition handle_labeled_patches (patch_file : string) (level : Z)
    (column : string) : gen (value * value * value) :=
  match read_csv fs patch_file with
  | None => Gen [] (Some (ReadCsvError patch_file))
  | Some df =>
      match Pandas.level_filter df level with
      | Raise e => Gen [] (Some e)
      | Return level_df =>
          if negb (Pandas.has_column level_df column) then
            Gen [] (Some (UnknownColumnError
                            ("Column " ++ column ++ " does not exists in "
                               ++ patch_file ++ "!!!")))
          else iter_rows (columns level_df) column
                 (Pandas.iterrows level_df)
      end
  end.

(** The [except] clause of [list_patches]. *)
Definition caught (e : exn) : bool :=
  match e with
  | PatchesNotFoundError _ | UnknownColumnError _ | SlideNotFoundError _ =>
      true
  | _ => false
  end.

(** The body of the loop over the rows of one slide. *)
Definition append_patch (slide_path : string) (level : Z) (dim : Z * Z)
    (t : value * value * value) (st : frame) : frame * option exn :=
  let '(vx, vy, lab) := t in
  ({| patch_list :=
        patch_list st
          ++ [{| slide := slide_path; x := vx; y := vy;
                 level := level; dimensions := dim |}];
      labels := labels st ++ [lab];
      warned := warned st |},
   None).

(** The [try] block for one slide entry. *)
Definition try_block (self : PathaiaHandler) (level : Z) (dim : Z * Z)
    (label : string) (name patch_folder : string) (st : frame)
  : frame * option exn :=
  match get_slide_file (slide_folder self) name with
  | Raise e => (st, Some e)
  | Return slide_path =>
      match get_patch_csv_from_patch_folder patch_folder with
      | Raise e => (st, Some e)
      | Return patch_file =>
          for_gen (handle_labeled_patches patch_file level label)
            (append_patch slide_path level dim) st
      end
  end.

Definition warn (msg : string) (st : frame) : frame :=
  {| patch_list := patch_list st;
     labels := labels st;
     warned := warned st ++ [msg] |}.

(** One turn of the loop over the slide entries: the [try] block and its
    [except] clause. *)
Definition slide_step (self : PathaiaHandler) (level : Z) (dim : Z * Z)
    (label : string) (entry : string * string) (st : frame)
  : frame * option exn :=
  let '(name, patch_folder) := entry in
  match try_block self level dim label name patch_folder st with
  | (st', None) => (st', None)
  | (st', Some e) =>
      if caught e then (warn (str e) st', None) else (st', Some e)
  end.

Definition empty_frame : frame :=
  {| patch_list := []; labels := []; warned := [] |}.

(** [list_patches] run to its end: the final locals, and the exception
    that escaped, if any. *)
Definition run_list_patches (self : PathaiaHandler) (level : Z)
    (dim : Z * Z) (label : string) : frame * option exn :=
  for_gen
    (get_patch_folders_in_project (project_folder self) default_exclude)
    (slide_step self level dim label) empty_frame.

(** What the caller of [list_patches] receives. *)
Definition list_patches (self : PathaiaHandler) (level : Z) (dim : Z * Z)
    (label : string) : result (list patch * list value) :=
  match run_list_patches self level dim label with
  | (st, None) => Return (patch_list st, labels st)
  | (_, Some e) => Raise e
  end.

(** The warnings a call of [list_patches] issues. *)
Definition list_patches_warnings (self : PathaiaHandler) (level : Z)
    (dim : Z * Z) (label : string) : list string :=
  warned (fst (run_list_patches self level dim label)).

End Management.

(* ================================================================== *)
(** ** Reading a field of a row, as the specification words it *)

(** The value of [row] in column [c] of [df] (missing when [df] has no
    such column). *)
Definition field (df : DataFrame) (c : string) (row : list value) : value :=
  match Pandas.index_of c (columns df) with
  | Some i => nth i row VNaN
  | None => VNaN
  end.

(** The rows of [df] whose level field equals [lvl], in table order. *)
Definition rows_at_level (df : DataFrame) (lvl : Z) : list (list value) :=
  filter (fun row => Pandas.eq_int (field df "level" row) lvl) (rows df).

(** The table cut down to its rows at level [lvl]. *)
Definition level_view (df : DataFrame) (lvl : Z) : DataFrame :=
  {| columns := columns df; dtypes := dtypes df;
     rows := rows_at_level df lvl |}.

(** A cell of [df] as a row series of [df] holds it: brought to the dtype
    of [df.values]. *)
Definition as_yielded (df : DataFrame) (v : value) : value :=
  Pandas.astype (Pandas.values_dtype (dtypes df)) v.

(** The triple of a row of [df]: its [x], its [y] and its value in the
    column [column], each as the row series holds it. *)
Definition triple_of (df : DataFrame) (column : string) (row : list value)
  : value * value * value :=
  (as_yielded df (field df "x" row), as_yielded df (field df "y" row),
   as_yielded df (field df column row)).

(** The descriptor of a row of [df] for the slide file [slide_path]. *)
Definition descriptor_of (df : DataFrame) (slide_path : string) (lvl : Z)
    (dim : Z * Z) (row : list value) : patch :=
  {| slide := slide_path;
     x := as_yielded df (field df "x" row);
     y := as_yielded df (field df "y" row);
     level := lvl; dimensions := dim |}.

(** The locals after the triples [ts] of the slide file [slide_path] have
    been appended. *)
Definition extend_frame (slide_path : string) (lvl : Z) (dim : Z * Z)
    (ts : list (value * value * value)) (st : frame) : frame :=
  {| patch_list :=
       patch_list st
         ++ map (fun t : value * value * value =>
                   {| slide := slide_path; x := fst (fst t);
                      y := snd (fst t); level := lvl; dimensions := dim |})
              ts;
     labels := labels st ++ map snd ts;
     warned := warned st |}.

(** What a slide entry gives to the data set: the descriptors of the
    triples its table yields, for the slide file the entry resolves to,
    and their labels; nothing when one of the two look-ups fails. *)
Definition entry_patches (fs : filesystem) (self : PathaiaHandler)
    (lvl : Z) (dim : Z * Z) (label : string) (entry : string * string)
  : list patch :=
  match get_slide_file fs (slide_folder self) (fst entry),
        get_patch_csv_from_patch_folder fs (snd entry) with
  | Return slide_path, Return patch_file =>
      map (fun t : value * value * value =>
             {| slide := slide_path; x := fst (fst t); y := snd (fst t);
                level := lvl; dimensions := dim |})
        (yielded (handle_labeled_patches fs patch_file lvl label))
  | _, _ => []
  end.

Definition entry_labels (fs : filesystem) (self : PathaiaHandler)
    (lvl : Z) (label : string) (entry : string * string) : list value :=
  match get_slide_file fs (slide_folder self) (fst entry),
        get_patch_csv_from_patch_folder fs (snd entry) with
  | Return slide_path, Return patch_file =>
      map snd (yielded (handle_labeled_patches fs patch_file lvl label))
  | _, _ => []
  end.

(** [sub] occurs somewhere in [s]. *)
Definition occurs_in (sub s : string) : Prop :=
  exists pre post, s = (pre ++ sub ++ post)%string.

(** The three exceptions the assembler turns into warnings. *)
Definition per_slide_error (e : exn) : Prop :=
  exists msg,
    e = SlideNotFoundError msg \/ e = PatchesNotFoundError msg
    \/ e = UnknownColumnError msg.

(** A directory entry the slide-file locator accepts for [slide_name]. *)
Definition is_candidate (slide_name name : string) : Prop :=
  Str.endswith name ".mrxs" = true
  /\ Str.startswith name "." = false
  /\ fst (OsPath.splitext name) = slide_name.

(** A project entry the walker passes over: its name holds a term of the
    exclude list, or it is not a directory. *)
Definition passed_over (fs : filesystem) (project_folder : string)
    (exclude : list string) (name : string) : Prop :=
  (exists ex, In ex exclude /\ occurs_in ex name)
  \/ isdir fs (OsPath.join project_folder name) = false.


(* ================================================================== *)
(** ** A sample project

    Project [/P] holds the slide folders [slideA] (a table with two rows
    at level 0 and one at level 1), [slideB] (no table), [slideC] (a table
    without the [tumor] column), [slideD] (a table, but no slide file),
    the folder [annotation_notes] and a plain file.  Slide folder [/S]
    holds the slide files of A, B and C and a hidden file. *)

Module Sample.

Definition tableA : DataFrame :=
  {| columns := ["level"; "x"; "y"; "tumor"];
     dtypes := [Int64; Int64; Int64; Object];
     rows := [ [VInt 0; VInt 1; VInt 2; VStr "yes"];
               [VInt 1; VInt 5; VInt 6; VStr "no"];
               [VInt 0; VInt 3; VInt 4; VStr "no"] ] |}.

Definition tableC : DataFrame :=
  {| columns := ["level"; "x"; "y"];
     dtypes := [Int64; Int64; Int64];
     rows := [ [VInt 0; VInt 7; VInt 8] ] |}.

(** A table of numbers only whose columns do not all have one dtype:
    [x] holds a value above the signed range and is unsigned. *)
Definition tableN : DataFrame :=
  {| columns := ["level"; "x"; "y"; "grade"];
     dtypes := [Int64; UInt64; Int64; Int64];
     rows := [ [VInt 0; VInt 9223372036854775809; VInt 9007199254740993;
                VInt 9007199254740993];
               [VInt 1; VInt 4; VInt 5; VInt 6] ] |}.

Definition dirs : list string :=
  ["/P"; "/S"; "/P/slideA"; "/P/slideB"; "/P/slideC"; "/P/slideD";
   "/P/annotation_notes"].

Definition files : list string :=
  ["/P/readme.txt"; "/P/slideA/patches.csv"; "/P/slideC/patches.csv";
   "/P/slideD/patches.csv"; "/P/annotation_notes/patches.csv";
   "/S/slideA.mrxs"; "/S/slideB.mrxs"; "/S/slideC.mrxs";
   "/S/.slideD.mrxs"].

Definition mem (p : string) (ps : list string) : bool :=
  existsb (String.eqb p) ps.

Definition fs : filesystem :=
  {| isdir := fun p => mem p dirs;
     exists_ := fun p => mem p dirs || mem p files;
     listdir := fun p =>
       if String.eqb p "/P" then
         ["slideA"; "readme.txt"; "slideB"; "annotation_notes"; "slideC";
          "slideD"]
       else if String.eqb p "/S" then
         [".slideD.mrxs"; "slideB.mrxs"; "slideA.mrxs"; "slideC.mrxs"]
       else [];
     read_csv := fun p =>
       if String.eqb p "/P/slideA/patches.csv" then Some tableA
       else if String.eqb p "/P/slideC/patches.csv" then Some tableC
       else if String.eqb p "/P/slideD/patches.csv" then Some tableA
       else if String.eqb p "/P/annotation_notes/patches.csv"
            then Some tableA
       else None |}.

Definition handler : PathaiaHandler :=
  {| slide_folder := "/S"; project_folder := "/P" |}.

(** A project with the single valid slide [slideA]. *)
Definition fs_single : filesystem :=
  {| isdir := isdir fs;
     exists_ := exists_ fs;
     listdir := fun p =>
       if String.eqb p "/P" then ["slideA"] else listdir fs p;
     read_csv := read_csv fs |}.

(** The project of the single slide [slideA], its table being the table
    of numbers. *)
Definition fs_numeric : filesystem :=
  {| isdir := isdir fs;
     exists_ := exists_ fs;
     listdir := listdir fs_single;
     read_csv := fun p =>
       if String.eqb p "/P/slideA/patches.csv" then Some tableN
       else None |}.

(** A project folder without any slide entry. *)
Definition fs_bare : filesystem :=
  {| isdir := isdir fs;
     exists_ := exists_ fs;
     listdir := fun p =>
       if String.eqb p "/P" then ["readme.txt"; "annotation_notes"]
       else listdir fs p;
     read_csv := read_csv fs |}.

End Sample.

(* ================================================================== *)
(** * Properties *)

Example splitext_plain :
  OsPath.splitext "slideA.mrxs" = ("slideA", ".mrxs").
Proof. reflexivity. Qed.

Example splitext_two_dots :
  OsPath.splitext "a.b.mrxs" = ("a.b", ".mrxs").
Proof. reflexivity. Qed.

Example splitext_hidden :
  OsPath.splitext ".mrxs" = (".mrxs", "").
Proof. reflexivity. Qed.

Example splitext_in_folder :
  OsPath.splitext "/data.d/slide" = ("/data.d/slide", "").
Proof. reflexivity. Qed.

Example join_plain : OsPath.join "/S" "slideA.mrxs" = "/S/slideA.mrxs".
Proof. reflexivity. Qed.

Example join_trailing_sep : OsPath.join "/S/" "slideA.mrxs" = "/S/slideA.mrxs".
Proof. reflexivity. Qed.

Example contains_examples :
  Str.contains "annotation" "my_annotation_notes" = true
  /\ Str.contains "annotation" "Annotation_notes" = false
  /\ Str.contains "" "slideA" = true
  /\ Str.endswith "slideA.mrxs" ".mrxs" = true
  /\ Str.endswith "mrxs" ".mrxs" = false.
Proof. repeat split; reflexivity. Qed.

Example sample_list_patches :
  list_patches Sample.fs Sample.handler 0 (256, 256)%Z "tumor"
  = Return
      ([ {| slide := "/S/slideA.mrxs"; x := VInt 1; y := VInt 2;
            level := 0; dimensions := (256, 256)%Z |};
         {| slide := "/S/slideA.mrxs"; x := VInt 3; y := VInt 4;
            level := 0; dimensions := (256, 256)%Z |} ],
       [VStr "yes"; VStr "no"]).
Proof. reflexivity. Qed.

Example sample_warnings :
  list_patches_warnings Sample.fs Sample.handler 0 (256, 256)%Z "tumor"
  = [ "Could not find extracted patches for the slide: /P/slideB";
      "Column tumor does not exists in /P/slideC/patches.csv!!!";
      "Could not find an mrxs slide file for: slideD in /S!!!" ].
Proof. reflexivity. Qed.

(* ------------------------------------------------------------------ *)
(** ** Strings *)

Lemma prefix_occurs (p s : string) :
  String.prefix p s = true <-> exists post, s = (p ++ post)%string.
Proof.
  revert s; induction p as [|a p IH]; intros s; simpl.
  - destruct s; simpl; split; intros; eauto.
  - destruct s as [|b s]; simpl.
    + split; [discriminate | intros [post H]; discriminate].
    + destruct (ascii_dec a b) as [->|Hab].
      * rewrite IH. split; intros [post H]; exists post.
        -- now rewrite H.
        -- now inversion H.
      * split; [discriminate|].
        intros [post H]; inversion H; subst; now elim Hab.
Qed.

Lemma contains_occurs (sub s : string) :
  Str.contains sub s = true <-> occurs_in sub s.
Proof.
  unfold occurs_in.
  induction s as [|c s IH]; cbn [Str.contains].
  - rewrite prefix_occurs. split.
    + intros [post H]. exists EmptyString, post. exact H.
    + intros [pre [post H]].
      destruct pre; simpl in H; [eauto | discriminate].
  - rewrite orb_true_iff, IH, prefix_occurs. split.
    + intros [[post H] | [pre [post H]]].
      * exists EmptyString, post. exact H.
      * exists (String c pre), post. simpl. now rewrite H.
    + intros [pre [post H]]. destruct pre as [|c' pre]; simpl in H.
      * left. eauto.
      * right. inversion H. eauto.
Qed.

Lemma occurs_in_middle (a sub b : string) :
  occurs_in sub (a ++ sub ++ b)%string.
Proof. exists a, b. reflexivity. Qed.

Lemma append_assoc (a b c : string) :
  ((a ++ b) ++ c = a ++ (b ++ c))%string.
Proof. induction a; simpl; congruence. Qed.


Lemma length_app (a b : string) :
  String.length (a ++ b) = String.length a + String.length b.
Proof. induction a; simpl; congruence. Qed.

Lemma substring_all (s : string) : String.substring 0 (String.length s) s = s.
Proof. induction s; simpl; congruence. Qed.

Lemma substring_take (a b : string) :
  String.substring 0 (String.length a) (a ++ b) = a.
Proof.
  induction a as [|c a IH]; simpl; [now destruct b | now rewrite IH].
Qed.

Lemma substring_skip (a b : string) (n : nat) :
  String.substring (String.length a) n (a ++ b) = String.substring 0 n b.
Proof. induction a; simpl; auto. Qed.

Lemma substring_split (s : string) (n : nat) :
  n <= String.length s ->
  s = (String.substring 0 n s
         ++ String.substring n (String.length s - n) s)%string.
Proof.
  revert n; induction s as [|c s IH]; intros n Hn; simpl in *.
  - destruct n; [reflexivity | lia].
  - destruct n as [|n]; simpl.
    + now rewrite substring_all.
    + rewrite <- IH by lia. reflexivity.
Qed.

Lemma endswith_occurs (s p : string) :
  Str.endswith s p = true <-> exists b, s = (b ++ p)%string.
Proof.
  unfold Str.endswith. rewrite andb_true_iff, Nat.leb_le, String.eqb_eq.
  split.
  - intros [Hlen Hsub].
    exists (String.substring 0 (String.length s - String.length p) s).
    pose proof (substring_split s (String.length s - String.length p)) as H.
    replace (String.length s - (String.length s - String.length p))
      with (String.length p) in H by lia.
    rewrite Hsub in H. apply H. lia.
  - intros [b ->]. rewrite length_app. split; [lia|].
    replace (String.length b + String.length p - String.length p)
      with (String.length b) by lia.
    rewrite substring_skip. apply substring_all.
Qed.

Lemma rfind_from_absent (c : ascii) (t : string) (i last : Z) :
  ~ occurs_in (String c EmptyString) t -> Str.rfind_from c t i last = last.
Proof.
  revert i last; induction t as [|a t IH]; intros i last Habs; simpl.
  - reflexivity.
  - destruct (Ascii.eqb_spec a c) as [->|Hne].
    + elim Habs. exists EmptyString, t. reflexivity.
    + apply IH. intros [pre [post H]]. apply Habs.
      exists (String a pre), post. simpl. now rewrite H.
Qed.

Lemma rfind_from_last (c : ascii) (a t : string) (i last : Z) :
  ~ occurs_in (String c EmptyString) t ->
  Str.rfind_from c (a ++ String c t) i last
  = (i + Z.of_nat (String.length a))%Z.
Proof.
  intros Habs. revert i last; induction a as [|b a IH]; intros i last.
  - simpl. rewrite Ascii.eqb_refl, rfind_from_absent by exact Habs. lia.
  - cbn [append Str.rfind_from String.length]. rewrite IH. lia.
Qed.

Lemma startswith_dot_cons (c : ascii) (s : string) :
  Str.startswith (String c s) "." = Ascii.eqb c OsPath.extsep.
Proof.
  unfold Str.startswith. cbn [String.prefix].
  destruct (ascii_dec "." c) as [<-|Hn].
  - now destruct s.
  - symmetry. apply Ascii.eqb_neq. intros Heq. apply Hn. now rewrite Heq.
Qed.

Lemma startswith_dot_app (b t : string) :
  b <> EmptyString ->
  Str.startswith (b ++ t) "." = Str.startswith b ".".
Proof.
  destruct b as [|c b]; [intros H; now elim H | intros _].
  cbn [append]. now rewrite !startswith_dot_cons.
Qed.

(** On a file name without separator that does not start with a dot,
    [splitext] takes the extension [.mrxs] off. *)
Lemma splitext_mrxs (b : string) :
  b <> EmptyString -> Str.startswith b "." = false ->
  ~ occurs_in "/" (b ++ ".mrxs") ->
  OsPath.splitext (b ++ ".mrxs") = (b, ".mrxs").
Proof.
  intros Hne Hdot Hsep. unfold OsPath.splitext.
  assert (Hs : Str.rfind (b ++ ".mrxs") OsPath.sep = (-1)%Z)
    by (apply rfind_from_absent; exact Hsep).
  assert (Hd : Str.rfind (b ++ ".mrxs") OsPath.extsep
               = Z.of_nat (String.length b)).
  { unfold Str.rfind.
    change (b ++ ".mrxs")%string with (b ++ String OsPath.extsep "mrxs")%string.
    rewrite rfind_from_last; [lia|].
    intros Hocc. apply contains_occurs in Hocc. discriminate. }
  rewrite Hs, Hd.
  destruct b as [|c b]; [now elim Hne|].
  assert (Hc : Ascii.eqb c OsPath.extsep = false)
    by now rewrite <- (startswith_dot_cons c b).
  replace (Z.to_nat (-1 + 1)) with 0 by lia.
  replace (Z.to_nat (Z.of_nat (String.length (String c b)) - (-1 + 1)))
    with (S (String.length b)) by (simpl String.length; lia).
  assert (Hnd : OsPath.has_non_dot (String c b ++ ".mrxs") 0
                  (S (String.length b)) = true)
    by (cbn [OsPath.has_non_dot String.get append]; now rewrite Hc).
  rewrite Hnd.
  replace (-1 <? Z.of_nat (String.length (String c b)))%Z with true
    by (symmetry; apply Z.ltb_lt; lia).
  cbn [andb]. unfold Str.slice_to, Str.slice_from.
  rewrite Nat2Z.id, substring_take, length_app.
  replace (String.length (String c b) + String.length ".mrxs"
           - String.length (String c b)) with (String.length ".mrxs") by lia.
  rewrite substring_skip. reflexivity.
Qed.

(* ------------------------------------------------------------------ *)
(** ** Loops *)

Lemma for_each_app {A S : Type} (body : A -> S -> S * option exn)
    (xs ys : list A) (st : S) :
  for_each body (xs ++ ys) st =
  match for_each body xs st with
  | (st', None) => for_each body ys st'
  | (st', Some e) => (st', Some e)
  end.
Proof.
  revert st; induction xs as [|x0 xs IH]; intros st; simpl.
  - reflexivity.
  - destruct (body x0 st) as [st' [e|]]; [reflexivity | apply IH].
Qed.

Lemma for_gen_returned {A S : Type} (xs : list A)
    (body : A -> S -> S * option exn) (st : S) :
  for_gen (Gen xs None) body st = for_each body xs st.
Proof.
  unfold for_gen; simpl.
  destruct (for_each body xs st) as [st' [e|]]; reflexivity.
Qed.

(** A loop whose body keeps an invariant of the state keeps it too,
    however it ends. *)
Lemma for_each_invariant {A S : Type} (I : S -> Prop) (P : A -> Prop)
    (body : A -> S -> S * option exn) :
  (forall a st, P a -> I st -> I (fst (body a st))) ->
  forall xs st, Forall P xs -> I st -> I (fst (for_each body xs st)).
Proof.
  intros Hbody xs; induction xs as [|a xs IH]; intros st HP HI; simpl.
  - exact HI.
  - inversion HP as [|? ? Ha Hxs]; subst.
    specialize (Hbody a st Ha HI).
    destruct (body a st) as [st' [e|]]; simpl in *; auto.
Qed.

(* ------------------------------------------------------------------ *)
(** ** The project walker *)

Section Walker.

Variable fs : filesystem.

Lemma keep_name_from_false (exclude : list string) (name : string) :
  fold_left (fun keep ex => if Str.contains ex name then false else keep)
    exclude false = false.
Proof.
  induction exclude as [|ex exclude IH]; simpl; [reflexivity|].
  now destruct (Str.contains ex name).
Qed.

Lemma keep_name_false (exclude : list string) (name : string) :
  keep_name exclude name = false <->
  exists ex, In ex exclude /\ occurs_in ex name.
Proof.
  unfold keep_name.
  induction exclude as [|ex exclude IH]; simpl.
  - split; [discriminate | intros [ex [[] _]]].
  - destruct (Str.contains ex name) eqn:Hc.
    + rewrite keep_name_from_false. split; [intros _ | reflexivity].
      exists ex. split; [now left | now apply contains_occurs].
    + rewrite IH. split.
      * intros [ex' [Hin Hocc]]. exists ex'. split; [now right | exact Hocc].
      * intros [ex' [[<- | Hin] Hocc]].
        -- apply contains_occurs in Hocc. congruence.
        -- eauto.
Qed.

Lemma walk_app (project_folder : string) (exclude : list string)
    (xs ys : list string) :
  walk fs project_folder exclude (xs ++ ys) =
  walk fs project_folder exclude xs ++ walk fs project_folder exclude ys.
Proof.
  induction xs as [|n xs IH]; simpl; [reflexivity|].
  destruct (keep_name exclude n); [|exact IH].
  destruct (isdir fs (OsPath.join project_folder n)); [|exact IH].
  simpl. now rewrite IH.
Qed.

Lemma walk_passed_over (project_folder : string) (exclude : list string)
    (name : string) (rest : list string) :
  passed_over fs project_folder exclude name ->
  walk fs project_folder exclude (name :: rest) =
  walk fs project_folder exclude rest.
Proof.
  intros [Hex | Hdir]; simpl.
  - apply keep_name_false in Hex. now rewrite Hex.
  - rewrite Hdir. now destruct (keep_name exclude name).
Qed.

Lemma walk_In (project_folder : string) (exclude : list string)
    (names : list string) (name patch_folder : string) :
  In (name, patch_folder) (walk fs project_folder exclude names) ->
  In name names
  /\ keep_name exclude name = true
  /\ patch_folder = OsPath.join project_folder name
  /\ isdir fs patch_folder = true.
Proof.
  induction names as [|n names IH]; simpl; [intros []|].
  destruct (keep_name exclude n) eqn:Hk.
  - destruct (isdir fs (OsPath.join project_folder n)) eqn:Hd.
    + intros [H | H].
      * inversion H; subst. auto.
      * destruct (IH H) as (? & ? & ? & ?). auto.
    + intros H. destruct (IH H) as (? & ? & ? & ?). auto.
  - intros H. destruct (IH H) as (? & ? & ? & ?). auto.
Qed.

Lemma walk_all_passed_over (project_folder : string)
    (exclude : list string) (names : list string) :
  Forall (passed_over fs project_folder exclude) names ->
  walk fs project_folder exclude names = [].
Proof.
  induction 1 as [|n names Hn _ IH]; [reflexivity|].
  now rewrite walk_passed_over.
Qed.

End Walker.

(* ------------------------------------------------------------------ *)
(** ** The assembler and the project folder *)

(** C4: when the project folder is not a directory, the walker raises
    [EmptyProjectError] before it yields anything; the [except] clause of
    [list_patches] does not cover that error, so the call ends with it:
    the caller gets the exception and no pair of lists, the locals are
    still empty and no warning was issued. *)
Theorem list_patches_empty_project (fs : filesystem) (self : PathaiaHandler)
    (lvl : Z) (dim : Z * Z) (label : string) :
  isdir fs (project_folder self) = false ->
  let e := EmptyProjectError
             ("Did not find any project at: " ++ project_folder self) in
  get_patch_folders_in_project fs (project_folder self) default_exclude
    = Gen [] (Some e)
  /\ caught e = false
  /\ run_list_patches fs self lvl dim label = (empty_frame, Some e)
  /\ list_patches fs self lvl dim label = Raise e
  /\ (forall pl labs, list_patches fs self lvl dim label <> Return (pl, labs))
  /\ list_patches_warnings fs self lvl dim label = [].
Proof.
  intros Hdir e.
  assert (Hw : get_patch_folders_in_project fs (project_folder self)
                 default_exclude = Gen [] (Some e)).
  { unfold get_patch_folders_in_project. now rewrite Hdir. }
  assert (Hrun : run_list_patches fs self lvl dim label
                 = (empty_frame, Some e)).
  { unfold run_list_patches. now rewrite Hw. }
  assert (Hres : list_patches fs self lvl dim label = Raise e).
  { unfold list_patches. now rewrite Hrun. }
  repeat split; auto.
  - intros pl labs. rewrite Hres. discriminate.
  - unfold list_patches_warnings. now rewrite Hrun.
Qed.

Lemma list_patches_empty_project_witness :
  list_patches Sample.fs
    {| slide_folder := "/S"; project_folder := "/P/readme.txt" |}
    0 (256, 256)%Z "tumor"
  = Raise (EmptyProjectError "Did not find any project at: /P/readme.txt").
Proof.
  apply (list_patches_empty_project Sample.fs
           {| slide_folder := "/S"; project_folder := "/P/readme.txt" |}
           0%Z (256, 256)%Z "tumor").
  reflexivity.
Defined.

(** C5: an entry of the project folder whose name holds a term of the
    exclude list somewhere (compared character by character, so with the
    case of the letters), or that is not a directory, is never yielded by
    the walker, which yields what it would yield without that entry; and
    [list_patches] runs exactly as over the other entries, so nothing of
    it reaches the output, whatever the entry holds. *)
Theorem excluded_entry_contributes_nothing (fs : filesystem)
    (project : string) (exclude before after : list string)
    (name : string) :
  isdir fs project = true ->
  listdir fs project = before ++ name :: after ->
  passed_over fs project exclude name ->
  (forall patch_folder,
     ~ In (name, patch_folder)
          (yielded (get_patch_folders_in_project fs project exclude)))
  /\ get_patch_folders_in_project fs project exclude
     = Gen (walk fs project exclude (before ++ after)) None
  /\ (exclude = default_exclude ->
      forall slides lvl dim label,
        let self := {| slide_folder := slides; project_folder := project |} in
        run_list_patches fs self lvl dim label
        = for_each (slide_step fs self lvl dim label)
            (walk fs project default_exclude (before ++ after)) empty_frame).
Proof.
  intros Hdir Hls Hpass.
  assert (Hw : get_patch_folders_in_project fs project exclude
               = Gen (walk fs project exclude (before ++ after)) None).
  { unfold get_patch_folders_in_project. rewrite Hdir, Hls; simpl.
    f_equal. rewrite !walk_app. f_equal. now apply walk_passed_over. }
  split; [|split].
  - intros patch_folder. rewrite Hw; simpl. intros Hin.
    apply walk_In in Hin. destruct Hin as (_ & Hkeep & -> & Hd).
    destruct Hpass as [Hex | Hnd].
    + apply keep_name_false in Hex. congruence.
    + congruence.
  - exact Hw.
  - intros -> slides lvl dim label self.
    unfold run_list_patches; simpl project_folder.
    rewrite Hw. apply for_gen_returned.
Qed.

Lemma excluded_entry_contributes_nothing_witness :
  get_patch_folders_in_project Sample.fs "/P" default_exclude
  = Gen (walk Sample.fs "/P" default_exclude
           (["slideA"; "readme.txt"; "slideB"] ++ ["slideC"; "slideD"]))
        None.
Proof.
  apply (excluded_entry_contributes_nothing Sample.fs "/P" default_exclude
           ["slideA"; "readme.txt"; "slideB"] ["slideC"; "slideD"]
           "annotation_notes").
  - reflexivity.
  - reflexivity.
  - left. exists "annotation". split; [now left|].
    exists "", "_notes". reflexivity.
Defined.

(** C9: when the project folder is a directory none of whose entries is a
    slide entry (each is excluded by name or is not a directory, or there
    is none at all), [list_patches] returns two empty lists, raises
    nothing and issues no warning. *)
Theorem list_patches_no_entries (fs : filesystem) (self : PathaiaHandler)
    (lvl : Z) (dim : Z * Z) (label : string) :
  isdir fs (project_folder self) = true ->
  Forall (passed_over fs (project_folder self) default_exclude)
    (listdir fs (project_folder self)) ->
  list_patches fs self lvl dim label = Return ([], [])
  /\ list_patches_warnings fs self lvl dim label = [].
Proof.
  intros Hdir Hall.
  assert (Hrun : run_list_patches fs self lvl dim label
                 = (empty_frame, None)).
  { unfold run_list_patches, get_patch_folders_in_project.
    rewrite Hdir; simpl negb; cbv iota.
    now rewrite (walk_all_passed_over fs _ _ _ Hall). }
  unfold list_patches, list_patches_warnings. now rewrite Hrun.
Qed.

Lemma list_patches_no_entries_witness :
  list_patches Sample.fs_bare Sample.handler 0 (256, 256)%Z "tumor"
    = Return ([], [])
  /\ list_patches_warnings Sample.fs_bare Sample.handler 0 (256, 256)%Z
       "tumor" = [].
Proof.
  apply (list_patches_no_entries Sample.fs_bare Sample.handler 0%Z
           (256, 256)%Z "tumor").
  - reflexivity.
  - apply Forall_cons; [|apply Forall_cons; [|apply Forall_nil]].
    + right. reflexivity.
    + left. exists "annotation". split; [now left|].
      exists "", "_notes". reflexivity.
Defined.

(* ------------------------------------------------------------------ *)
(** ** Tables *)

Lemma index_of_In (c : string) (cols : list string) :
  In c cols <-> exists i, Pandas.index_of c cols = Some i.
Proof.
  induction cols as [|c' cols IH]; simpl.
  - split; [intros [] | intros [i H]; discriminate].
  - destruct (String.eqb_spec c c') as [->|Hne].
    + split; eauto.
    + rewrite IH. split.
      * intros [Heq | [i Hi]]; [congruence|]. rewrite Hi; simpl; eauto.
      * intros [i Hi]. right.
        destruct (Pandas.index_of c cols); [eauto | discriminate].
Qed.

Lemma index_of_None (c : string) (cols : list string) :
  ~ In c cols <-> Pandas.index_of c cols = None.
Proof.
  rewrite index_of_In. destruct (Pandas.index_of c cols).
  - split; [intros H; elim H; eauto | discriminate].
  - split; [reflexivity | intros _ [i H]; discriminate].
Qed.

Lemma has_column_In (df : DataFrame) (c : string) :
  Pandas.has_column df c = true <-> In c (columns df).
Proof.
  unfold Pandas.has_column. rewrite existsb_exists. split.
  - intros [c' [Hin Heq]]. apply String.eqb_eq in Heq. now subst.
  - intros Hin. exists c. split; [exact Hin | apply String.eqb_refl].
Qed.

Lemma cell_field (df : DataFrame) (row : list value) (c : string) :
  In c (columns df) ->
  Pandas.cell (columns df) row c = Return (field df c row).
Proof.
  intros Hin. apply index_of_In in Hin. destruct Hin as [i Hi].
  unfold Pandas.cell, field. now rewrite Hi.
Qed.

Lemma cell_raises (cols : list string) (row : list value) (c : string)
    (e : exn) :
  Pandas.cell cols row c = Raise e -> e = KeyError c /\ ~ In c cols.
Proof.
  unfold Pandas.cell. destruct (Pandas.index_of c cols) eqn:Hi.
  - discriminate.
  - intros H; inversion H. split; [reflexivity | now apply index_of_None].
Qed.

Lemma select_mask {A : Type} (f : A -> bool) (xs : list A) :
  Pandas.select xs (map f xs) = filter f xs.
Proof.
  induction xs as [|a xs IH]; simpl; [reflexivity|].
  destruct (f a); now rewrite IH.
Qed.

(** The level filter keeps the columns and the rows at the level, and
    fails only for want of a [level] column. *)
Lemma level_filter_returns (df : DataFrame) (lvl : Z) :
  In "level" (columns df) ->
  Pandas.level_filter df lvl
  = Return (level_view df lvl).
Proof.
  intros Hin. apply index_of_In in Hin. destruct Hin as [i Hi].
  unfold Pandas.level_filter, Pandas.getitem, Pandas.getitem_mask,
    Pandas.series_eq, level_view, rows_at_level, field.
  rewrite Hi; simpl. rewrite map_map, select_mask. reflexivity.
Qed.

Lemma level_filter_raises (df : DataFrame) (lvl : Z) :
  ~ In "level" (columns df) ->
  Pandas.level_filter df lvl = Raise (KeyError "level").
Proof.
  intros Hin. apply index_of_None in Hin.
  unfold Pandas.level_filter, Pandas.getitem. now rewrite Hin.
Qed.

Lemma level_filter_cases (df : DataFrame) (lvl : Z) :
  (In "level" (columns df)
   /\ Pandas.level_filter df lvl
      = Return (level_view df lvl))
  \/ (~ In "level" (columns df)
      /\ Pandas.level_filter df lvl = Raise (KeyError "level")).
Proof.
  destruct (in_dec string_dec "level" (columns df)) as [Hin | Hin].
  - left. split; [exact Hin | now apply level_filter_returns].
  - right. split; [exact Hin | now apply level_filter_raises].
Qed.

(* ------------------------------------------------------------------ *)
(** ** The labeled-patch extractor *)

Section Extractor.

Variable fs : filesystem.

Lemma iter_rows_complete (df : DataFrame) (column : string)
    (rs : list (list value)) :
  In "x" (columns df) -> In "y" (columns df) -> In column (columns df) ->
  iter_rows (columns df) column rs
  = Gen (map (fun row =>
                (field df "x" row, field df "y" row, field df column row))
           rs) None.
Proof.
  intros Hx Hy Hc. induction rs as [|row rs IH]; simpl; [reflexivity|].
  unfold row_triple.
  rewrite (cell_field df row "x" Hx), (cell_field df row "y" Hy),
    (cell_field df row column Hc); simpl.
  now rewrite IH.
Qed.

Lemma astype_nan (d : dtype) : Pandas.astype d VNaN = VNaN.
Proof. now destruct d. Qed.

Lemma field_astype (df : DataFrame) (d : dtype) (c : string)
    (row : list value) :
  field df c (map (Pandas.astype d) row) = Pandas.astype d (field df c row).
Proof.
  unfold field. destruct (Pandas.index_of c (columns df)) as [i|].
  - rewrite <- (astype_nan d) at 1. apply map_nth.
  - symmetry. apply astype_nan.
Qed.

(** The loop over the row series of the table cut down to [rs]. *)
Lemma iter_rows_series (df : DataFrame) (column : string)
    (rs : list (list value)) :
  In "x" (columns df) -> In "y" (columns df) -> In column (columns df) ->
  iter_rows (columns df) column
    (map (map (Pandas.astype (Pandas.values_dtype (dtypes df)))) rs)
  = Gen (map (triple_of df column) rs) None.
Proof.
  intros Hx Hy Hc. rewrite iter_rows_complete by assumption.
  rewrite map_map. f_equal. apply map_ext. intros row.
  unfold triple_of, as_yielded. now rewrite !field_astype.
Qed.

Lemma row_triple_raises (cols : list string) (column : string)
    (row : list value) (e : exn) :
  row_triple cols column row = Raise e -> exists key, e = KeyError key.
Proof.
  unfold row_triple, bind.
  destruct (Pandas.cell cols row "x") eqn:Hx;
    [|intros H; inversion H; subst; apply cell_raises in Hx;
      destruct Hx; eauto].
  destruct (Pandas.cell cols row "y") eqn:Hy;
    [|intros H; inversion H; subst; apply cell_raises in Hy;
      destruct Hy; eauto].
  destruct (Pandas.cell cols row column) eqn:Hc;
    [discriminate
    |intros H; inversion H; subst; apply cell_raises in Hc;
      destruct Hc; eauto].
Qed.

Lemma iter_rows_raises (cols : list string) (column : string)
    (rs : list (list value)) (e : exn) :
  raised (iter_rows cols column rs) = Some e -> exists key, e = KeyError key.
Proof.
  induction rs as [|row rs IH]; simpl; [discriminate|].
  destruct (row_triple cols column row) eqn:Ht; simpl.
  - exact IH.
  - intros H; inversion H; subst. eapply row_triple_raises; eauto.
Qed.

(** The exceptions that can end the extractor. *)
Lemma handle_labeled_patches_raises (patch_file : string) (lvl : Z)
    (column : string) (e : exn) :
  raised (handle_labeled_patches fs patch_file lvl column) = Some e ->
  e = ReadCsvError patch_file
  \/ (exists key, e = KeyError key)
  \/ (e = UnknownColumnError
            ("Column " ++ column ++ " does not exists in "
               ++ patch_file ++ "!!!")
      /\ yielded (handle_labeled_patches fs patch_file lvl column) = []).
Proof.
  unfold handle_labeled_patches.
  destruct (read_csv fs patch_file) as [df|]; simpl.
  - destruct (Pandas.level_filter df lvl) as [level_df|e'] eqn:Hf; simpl.
    + destruct (Pandas.has_column level_df column); simpl.
      * intros H. right; left. eapply iter_rows_raises; eauto.
      * intros H; inversion H. right; right. auto.
    + intros H; inversion H; subst.
      destruct (level_filter_cases df lvl) as [[_ Hr] | [_ Hr]];
        rewrite Hr in Hf; inversion Hf. right; left; eauto.
  - intros H; inversion H. now left.
Qed.

End Extractor.

Lemma handle_labeled_patches_complete (fs : filesystem)
    (patch_file : string) (lvl : Z) (column : string) (df : DataFrame) :
  read_csv fs patch_file = Some df ->
  In "level" (columns df) -> In "x" (columns df) -> In "y" (columns df) ->
  In column (columns df) ->
  handle_labeled_patches fs patch_file lvl column
  = Gen (map (triple_of df column) (rows_at_level df lvl)) None.
Proof.
  intros Hread Hl Hx Hy Hc.
  unfold handle_labeled_patches.
  rewrite Hread, (level_filter_returns df lvl Hl).
  assert (Hhas : Pandas.has_column (level_view df lvl) column = true)
    by now apply has_column_In.
  rewrite Hhas. cbn [negb]. unfold Pandas.iterrows, level_view.
  cbn [columns dtypes rows]. now apply iter_rows_series.
Qed.






Example float64_of_int_examples :
  Pandas.float64_of_int 3 = SpecFloat.S754_finite false 6755399441055744 (-51)
  /\ Pandas.float64_of_int 9007199254740993
     = Pandas.float64_of_int 9007199254740992
  /\ Pandas.float64_of_int 9223372036854775809
     = Pandas.float64_of_int 9223372036854775808
  /\ Pandas.float64_of_int 9007199254740992
     = SpecFloat.S754_finite false 4503599627370496 1
  /\ Pandas.eq_int (VFloat (Pandas.float64_of_int 2)) 2 = true
  /\ Pandas.eq_int (VFloat (Pandas.float64_of_int 2)) 3 = false.
Proof. repeat split; reflexivity. Qed.

Example values_dtype_examples :
  Pandas.values_dtype [Int64; Int64; Int64] = Int64
  /\ Pandas.values_dtype [Int64; UInt64; Int64] = Float64
  /\ Pandas.values_dtype [Int64; Int64; Float64] = Float64
  /\ Pandas.values_dtype [Int64; Int64; Bool] = Object
  /\ Pandas.values_dtype [Int64; Float64; Object] = Object.
Proof. repeat split; reflexivity. Qed.

Example numeric_table_yield :
  handle_labeled_patches Sample.fs_numeric "/P/slideA/patches.csv" 0 "grade"
  = Gen [ (VFloat (Pandas.float64_of_int 9223372036854775808),
           VFloat (Pandas.float64_of_int 9007199254740992),
           VFloat (Pandas.float64_of_int 9007199254740992)) ] None.
Proof. reflexivity. Qed.

(** C7: on a table that was read, the extractor raises
    [UnknownColumnError] if and only if the level filter went through and
    the label column is not a column of the filtered view; the error comes
    before any row is yielded, and with the column present it is not
    raised. *)
Theorem handle_labeled_patches_unknown_column (fs : filesystem)
    (patch_file : string) (lvl : Z) (column : string) (df : DataFrame) :
  read_csv fs patch_file = Some df ->
  ((exists msg,
      raised (handle_labeled_patches fs patch_file lvl column)
      = Some (UnknownColumnError msg))
   <-> (exists level_df,
          Pandas.level_filter df lvl = Return level_df
          /\ ~ In column (columns level_df)))
  /\ (forall msg,
        raised (handle_labeled_patches fs patch_file lvl column)
        = Some (UnknownColumnError msg) ->
        yielded (handle_labeled_patches fs patch_file lvl column) = [])
  /\ (In column (columns df) ->
      forall msg,
        raised (handle_labeled_patches fs patch_file lvl column)
        <> Some (UnknownColumnError msg)).
Proof.
  intros Hread.
  assert (Hiff :
    (exists msg,
      raised (handle_labeled_patches fs patch_file lvl column)
      = Some (UnknownColumnError msg))
    <-> (exists level_df,
          Pandas.level_filter df lvl = Return level_df
          /\ ~ In column (columns level_df))).
  { unfold handle_labeled_patches. rewrite Hread.
    destruct (Pandas.level_filter df lvl) as [level_df|e] eqn:Hf; simpl.
    - destruct (Pandas.has_column level_df column) eqn:Hhas; simpl.
      + apply has_column_In in Hhas. split.
        * intros [msg H]. apply iter_rows_raises in H.
          destruct H as [key H]; discriminate.
        * intros [level_df' [Heq Hnot]]. inversion Heq; subst. contradiction.
      + split; [|eauto]. intros _. exists level_df. split; [reflexivity|].
        rewrite <- has_column_In. congruence.
    - split.
      + intros [msg H]. inversion H; subst.
        destruct (level_filter_cases df lvl) as [[_ Hr] | [_ Hr]];
          rewrite Hr in Hf; discriminate.
      + intros [level_df [Heq _]]. discriminate. }
  split; [exact Hiff | split].
  - intros msg H. apply handle_labeled_patches_raises in H.
    destruct H as [H | [[key H] | [_ H]]]; try discriminate. exact H.
  - intros Hin msg H.
    destruct (proj1 Hiff (ex_intro _ msg H)) as [level_df [Hf Hnot]].
    destruct (level_filter_cases df lvl) as [[_ Hr] | [_ Hr]];
      rewrite Hr in Hf; inversion Hf; subst. now apply Hnot.
Qed.

Lemma handle_labeled_patches_unknown_column_witness :
  handle_labeled_patches Sample.fs "/P/slideC/patches.csv" 0 "tumor"
  = Gen [] (Some (UnknownColumnError
                    "Column tumor does not exists in /P/slideC/patches.csv!!!"))
  /\ yielded (handle_labeled_patches Sample.fs "/P/slideC/patches.csv" 0
                "tumor") = [].
Proof.
  split; [reflexivity|].
  apply (proj1 (proj2 (handle_labeled_patches_unknown_column Sample.fs
                         "/P/slideC/patches.csv" 0%Z "tumor" Sample.tableC
                         eq_refl))
           "Column tumor does not exists in /P/slideC/patches.csv!!!").
  reflexivity.
Defined.

(* ------------------------------------------------------------------ *)
(** ** The slide-file locator *)

Lemma slide_match_candidate (slide_name name : string) :
  slide_match slide_name name = true <-> is_candidate slide_name name.
Proof.
  unfold slide_match, is_candidate.
  rewrite !andb_true_iff, negb_true_iff, String.eqb_eq.
  split; intros H; decompose [and] H; repeat split; congruence.
Qed.

(** For the names a directory listing gives (no separator inside), the
    locator accepts exactly the file [slide_name.mrxs], provided the
    slide name is not empty and does not start with a dot. *)
Lemma is_candidate_plain (slide_name name : string) :
  ~ occurs_in "/" name ->
  (is_candidate slide_name name <->
   name = (slide_name ++ ".mrxs")%string
   /\ Str.startswith slide_name "." = false
   /\ slide_name <> EmptyString).
Proof.
  intros Hsep. unfold is_candidate. split.
  - intros (Hend & Hdot & Hbase).
    apply endswith_occurs in Hend. destruct Hend as [b ->].
    assert (Hb : b <> EmptyString) by (intros ->; discriminate).
    assert (Hbdot : Str.startswith b "." = false)
      by now rewrite <- (startswith_dot_app b ".mrxs").
    rewrite splitext_mrxs in Hbase by assumption. simpl in Hbase.
    subst. auto.
  - intros (-> & Hdot & Hne).
    rewrite splitext_mrxs by assumption.
    split; [apply endswith_occurs; eauto | split; [|reflexivity]].
    now rewrite startswith_dot_app.
Qed.

Lemma first_slide_skips (slide_folder slide_name : string)
    (before rest : list string) :
  Forall (fun n => ~ is_candidate slide_name n) before ->
  first_slide slide_folder slide_name (before ++ rest)
  = first_slide slide_folder slide_name rest.
Proof.
  induction 1 as [|n before Hn _ IH]; simpl; [reflexivity|].
  destruct (slide_match slide_name n) eqn:Hm; [|exact IH].
  apply slide_match_candidate in Hm. contradiction.
Qed.

(** C6: [get_slide_file] raises [SlideNotFoundError] when the slide
    folder is not a directory; otherwise it returns the path of the first
    entry of the listing that ends with [.mrxs], does not start with a dot
    and whose name without its extension is the slide name; and when no
    entry is such, it raises [SlideNotFoundError] with a message in which
    both the slide name and the slide folder occur. *)
Theorem get_slide_file_first_candidate (fs : filesystem)
    (folder slide_name : string) :
  (isdir fs folder = false ->
   exists msg, get_slide_file fs folder slide_name
               = Raise (SlideNotFoundError msg))
  /\ (isdir fs folder = true ->
      forall before name after,
        listdir fs folder = before ++ name :: after ->
        Forall (fun n => ~ is_candidate slide_name n) before ->
        is_candidate slide_name name ->
        get_slide_file fs folder slide_name
        = Return (OsPath.join folder name))
  /\ (isdir fs folder = true ->
      Forall (fun n => ~ is_candidate slide_name n) (listdir fs folder) ->
      exists msg,
        get_slide_file fs folder slide_name = Raise (SlideNotFoundError msg)
        /\ occurs_in slide_name msg /\ occurs_in folder msg).
Proof.
  unfold get_slide_file. split; [|split].
  - intros ->; simpl. eauto.
  - intros -> before name after Hls Hbefore Hname; simpl.
    rewrite Hls, first_slide_skips by exact Hbefore. simpl.
    apply slide_match_candidate in Hname. now rewrite Hname.
  - intros -> Hnone; cbn [negb].
    rewrite <- (app_nil_r (listdir fs folder)).
    rewrite first_slide_skips by exact Hnone. cbn [first_slide].
    eexists. split; [reflexivity | split].
    + apply occurs_in_middle.
    + exists ("Could not find an mrxs slide file for: " ++ slide_name
                ++ " in ")%string, "!!!".
      now rewrite !append_assoc.
Qed.

Lemma get_slide_file_first_candidate_witness :
  (exists msg, get_slide_file Sample.fs "/nowhere" "slideA"
               = Raise (SlideNotFoundError msg))
  /\ get_slide_file Sample.fs "/S" "slideA" = Return "/S/slideA.mrxs"
  /\ (exists msg,
        get_slide_file Sample.fs "/S" "slideD"
        = Raise (SlideNotFoundError msg)
        /\ occurs_in "slideD" msg /\ occurs_in "/S" msg).
Proof.
  split; [|split].
  - apply (proj1 (get_slide_file_first_candidate Sample.fs "/nowhere"
                    "slideA")).
    reflexivity.
  - apply (proj1 (proj2 (get_slide_file_first_candidate Sample.fs "/S"
                           "slideA"))
             eq_refl [".slideD.mrxs"; "slideB.mrxs"] "slideA.mrxs"
             ["slideC.mrxs"]).
    + reflexivity.
    + apply Forall_cons; [|apply Forall_cons; [|apply Forall_nil]];
        intros (H1 & H2 & H3); vm_compute in H2, H3; discriminate.
    + repeat split; reflexivity.
  - apply (proj2 (proj2 (get_slide_file_first_candidate Sample.fs "/S"
                           "slideD")) eq_refl).
    repeat (apply Forall_cons || apply Forall_nil);
      intros (H1 & H2 & H3); vm_compute in H2, H3; discriminate.
Defined.

(* ------------------------------------------------------------------ *)
(** ** The dataset assembler *)

Lemma for_each_raised {A S : Type} (Q : exn -> Prop)
    (body : A -> S -> S * option exn) :
  (forall a st st' e, body a st = (st', Some e) -> Q e) ->
  forall xs st st' e, for_each body xs st = (st', Some e) -> Q e.
Proof.
  intros Hbody xs; induction xs as [|a xs IH]; intros st st' e; simpl.
  - discriminate.
  - destruct (body a st) as [st1 [e1|]] eqn:Hb.
    + intros H; inversion H; subst. eapply Hbody; eauto.
    + apply IH.
Qed.

Section Assembler.

Variable fs : filesystem.
Variable self : PathaiaHandler.
Variable lvl : Z.
Variable dim : Z * Z.
Variable label : string.

(** The loop over the rows of a slide appends them all and never
    raises by itself. *)
Lemma for_each_append_patch (slide_path : string)
    (ts : list (value * value * value)) (st : frame) :
  for_each (append_patch slide_path lvl dim) ts st
  = (extend_frame slide_path lvl dim ts st, None).
Proof.
  revert st; induction ts as [|[[vx vy] lab] ts IH]; intros st; simpl.
  - unfold extend_frame; simpl. rewrite !app_nil_r. now destruct st.
  - rewrite IH. unfold extend_frame; simpl.
    now rewrite <- !app_assoc.
Qed.

(** What the [try] block does to the locals: it stops at a failed
    look-up with the locals untouched, or it appends what the extractor
    yielded for the slide file and ends as the extractor ended. *)
Lemma try_block_cases (name patch_folder : string) (st : frame) :
  (exists e,
     try_block fs self lvl dim label name patch_folder st = (st, Some e)
     /\ (get_slide_file fs (slide_folder self) name = Raise e
         \/ (exists slide_path,
               get_slide_file fs (slide_folder self) name
               = Return slide_path
               /\ get_patch_csv_from_patch_folder fs patch_folder
                  = Raise e)))
  \/ (exists slide_path patch_file,
        get_slide_file fs (slide_folder self) name = Return slide_path
        /\ get_patch_csv_from_patch_folder fs patch_folder
           = Return patch_file
        /\ try_block fs self lvl dim label name patch_folder st
           = (extend_frame slide_path lvl dim
                (yielded (handle_labeled_patches fs patch_file lvl label))
                st,
              raised (handle_labeled_patches fs patch_file lvl label))).
Proof.
  unfold try_block.
  destruct (get_slide_file fs (slide_folder self) name)
    as [slide_path|e]; [|left; eauto].
  destruct (get_patch_csv_from_patch_folder fs patch_folder)
    as [patch_file|e]; [|left; eauto 6].
  right. exists slide_path, patch_file. repeat split.
  unfold for_gen. now rewrite for_each_append_patch.
Qed.

Lemma extend_frame_nil (slide_path : string) (st : frame) :
  extend_frame slide_path lvl dim [] st = st.
Proof.
  unfold extend_frame; simpl. rewrite !app_nil_r. now destruct st.
Qed.

Lemma get_slide_file_raises (folder name : string) (e : exn) :
  get_slide_file fs folder name = Raise e ->
  exists msg, e = SlideNotFoundError msg.
Proof.
  unfold get_slide_file.
  destruct (negb (isdir fs folder)); [intros H; inversion H; eauto|].
  destruct (first_slide folder name (listdir fs folder));
    [discriminate | intros H; inversion H; eauto].
Qed.

Lemma get_patch_csv_raises (patch_folder : string) (e : exn) :
  get_patch_csv_from_patch_folder fs patch_folder = Raise e ->
  exists msg, e = SlideNotFoundError msg \/ e = PatchesNotFoundError msg.
Proof.
  unfold get_patch_csv_from_patch_folder.
  destruct (isdir fs patch_folder); [|intros H; inversion H; eauto].
  destruct (exists_ fs (OsPath.join patch_folder "patches.csv"));
    [discriminate | intros H; inversion H; eauto].
Qed.

Lemma per_slide_error_caught (e : exn) :
  per_slide_error e <-> caught e = true.
Proof.
  unfold per_slide_error. split.
  - intros [msg [-> | [-> | ->]]]; reflexivity.
  - destruct e; simpl; try discriminate; eauto.
Qed.

(** An exception of the three kinds leaves the [try] block before
    anything was appended. *)
Lemma try_block_caught (name patch_folder : string) (st st' : frame)
    (e : exn) :
  try_block fs self lvl dim label name patch_folder st = (st', Some e) ->
  caught e = true -> st' = st.
Proof.
  intros Htry Hc.
  destruct (try_block_cases name patch_folder st)
    as [(e' & H & _) | (slide_path & patch_file & _ & _ & H)];
    rewrite H in Htry; inversion Htry as [[Hst He]]; [reflexivity|].
  apply handle_labeled_patches_raises in He.
  destruct He as [-> | [[key ->] | [_ Hnil]]]; try discriminate.
  rewrite Hnil. apply extend_frame_nil.
Qed.

(** The exceptions that leave [slide_step] are foreign to the module. *)
Lemma slide_step_raises (entry : string * string) (st st' : frame)
    (e : exn) :
  slide_step fs self lvl dim label entry st = (st', Some e) ->
  (exists key, e = KeyError key) \/ (exists path, e = ReadCsvError path).
Proof.
  destruct entry as [name patch_folder]. unfold slide_step.
  destruct (try_block fs self lvl dim label name patch_folder st)
    as [st1 [e1|]] eqn:Htry; [|discriminate].
  destruct (caught e1) eqn:Hc; [discriminate|].
  intros H; inversion H; subst.
  destruct (try_block_cases name patch_folder st)
    as [(e' & H' & Hwhy) | (slide_path & patch_file & _ & _ & H')];
    rewrite H' in Htry; inversion Htry as [[Hst He]]; subst.
  - destruct Hwhy as [Hr | (slide_path & _ & Hr)].
    + apply get_slide_file_raises in Hr. destruct Hr as [msg ->].
      discriminate.
    + apply get_patch_csv_raises in Hr.
      destruct Hr as [msg [-> | ->]]; discriminate.
  - apply handle_labeled_patches_raises in He.
    destruct He as [-> | [Hk | [-> _]]]; eauto. discriminate.
Qed.

(** The locals after one slide entry: those before it, extended by the
    rows of at most that slide, whatever the way the turn ended. *)
Lemma slide_step_frame (name patch_folder : string) (st : frame) :
  let st' := fst (slide_step fs self lvl dim label (name, patch_folder) st)
  in
  (patch_list st' = patch_list st /\ labels st' = labels st)
  \/ (exists slide_path patch_file,
        get_slide_file fs (slide_folder self) name = Return slide_path
        /\ get_patch_csv_from_patch_folder fs patch_folder
           = Return patch_file
        /\ patch_list st'
           = patch_list
               (extend_frame slide_path lvl dim
                  (yielded (handle_labeled_patches fs patch_file lvl label))
                  st)
        /\ labels st'
           = labels
               (extend_frame slide_path lvl dim
                  (yielded (handle_labeled_patches fs patch_file lvl label))
                  st)).
Proof.
  unfold slide_step.
  destruct (try_block_cases name patch_folder st)
    as [(e & H & _) | (slide_path & patch_file & Hs & Hp & H)];
    rewrite H.
  - left. destruct (caught e); simpl; auto.
  - right. exists slide_path, patch_file.
    destruct (raised (handle_labeled_patches fs patch_file lvl label))
      as [e|]; [destruct (caught e)|]; simpl; auto.
Qed.

End Assembler.

Lemma for_gen_fst {A S : Type} (g : gen A)
    (body : A -> S -> S * option exn) (st : S) :
  fst (for_gen g body st) = fst (for_each body (yielded g) st).
Proof.
  unfold for_gen.
  now destruct (for_each body (yielded g) st) as [st' [e|]].
Qed.






Lemma filter_nothing {A : Type} (f : A -> bool) (xs : list A) :
  (forall a, In a xs -> f a = false) -> filter f xs = [].
Proof.
  induction xs as [|a xs IH]; intros H; simpl; [reflexivity|].
  rewrite (H a) by now left. apply IH. intros a' Ha'. apply H. now right.
Qed.

(** The exceptions that can escape [list_patches]. *)
Lemma run_list_patches_raises (fs : filesystem) (self : PathaiaHandler)
    (lvl : Z) (dim : Z * Z) (label : string) (e : exn) :
  snd (run_list_patches fs self lvl dim label) = Some e ->
  (exists msg, e = EmptyProjectError msg)
  \/ (exists key, e = KeyError key)
  \/ (exists path, e = ReadCsvError path).
Proof.
  unfold run_list_patches, for_gen.
  destruct (for_each (slide_step fs self lvl dim label) _ empty_frame)
    as [st [e'|]] eqn:Hloop; simpl.
  - intros H; inversion H; subst. right.
    eapply (for_each_raised
              (fun e => (exists key, e = KeyError key)
                        \/ (exists path, e = ReadCsvError path)));
      [|exact Hloop].
    intros entry st0 st1 e0. apply slide_step_raises.
  - unfold get_patch_folders_in_project.
    destruct (negb (isdir fs (project_folder self))); simpl;
      [|discriminate].
    intros H; inversion H. left; eauto.
Qed.

(** C10: on a table that has the [level] column and the label column,
    a queried level that no row carries makes the extractor yield nothing
    and end normally; and no operation of the module ever raises
    [LevelNotFoundError]. *)
Theorem unmatched_level_yields_nothing (fs : filesystem) :
  (forall patch_file lvl column df,
     read_csv fs patch_file = Some df ->
     In "level" (columns df) -> In column (columns df) ->
     (forall row, In row (rows df) ->
                  Pandas.eq_int (field df "level" row) lvl = false) ->
     handle_labeled_patches fs patch_file lvl column = Gen [] None)
  /\ (forall msg,
        (forall patch_folder,
           get_patch_csv_from_patch_folder fs patch_folder
           <> Raise (LevelNotFoundError msg))
        /\ (forall project exclude,
              raised (get_patch_folders_in_project fs project exclude)
              <> Some (LevelNotFoundError msg))
        /\ (forall folder name,
              get_slide_file fs folder name <> Raise (LevelNotFoundError msg))
        /\ (forall patch_file lvl column,
              raised (handle_labeled_patches fs patch_file lvl column)
              <> Some (LevelNotFoundError msg))
        /\ (forall self lvl dim label,
              list_patches fs self lvl dim label
              <> Raise (LevelNotFoundError msg))).
Proof.
  split.
  - intros patch_file lvl column df Hread Hl Hc Hnone.
    unfold handle_labeled_patches.
    rewrite Hread, (level_filter_returns df lvl Hl).
    assert (Hhas : Pandas.has_column
                     (level_view df lvl)
                     column = true)
      by now apply has_column_In.
    rewrite Hhas. cbn [negb].
    unfold Pandas.iterrows, level_view, rows_at_level.
    cbn [columns dtypes rows]. now rewrite filter_nothing.
  - intros msg. repeat split.
    + intros patch_folder H. apply get_patch_csv_raises in H.
      destruct H as [m [H | H]]; discriminate.
    + intros project exclude. unfold get_patch_folders_in_project.
      destruct (negb (isdir fs project)); simpl; discriminate.
    + intros folder name H. apply get_slide_file_raises in H.
      destruct H as [m H]; discriminate.
    + intros patch_file lvl column H.
      apply handle_labeled_patches_raises in H.
      destruct H as [H | [[key H] | [H _]]]; discriminate.
    + intros self lvl dim label H.
      assert (Hsnd : snd (run_list_patches fs self lvl dim label)
                     = Some (LevelNotFoundError msg)).
      { unfold list_patches in H.
        destruct (run_list_patches fs self lvl dim label) as [st [e|]];
          simpl; [congruence | discriminate]. }
      apply run_list_patches_raises in Hsnd.
      destruct Hsnd as [[m Hm] | [[k Hk] | [p Hp]]]; discriminate.
Qed.

Lemma unmatched_level_yields_nothing_witness :
  handle_labeled_patches Sample.fs "/P/slideA/patches.csv" 7 "tumor"
  = Gen [] None.
Proof.
  apply (proj1 (unmatched_level_yields_nothing Sample.fs)
           "/P/slideA/patches.csv" 7%Z "tumor" Sample.tableA).
  - reflexivity.
  - simpl; tauto.
  - simpl; tauto.
  - intros row [<- | [<- | [<- | []]]]; reflexivity.
Defined.

(* ================================================================== *)
(** * Further properties of the module *)

(* ------------------------------------------------------------------ *)
(** ** Paths *)

Lemma append_empty_r (a : string) : (a ++ EmptyString)%string = a.
Proof. induction a; simpl; congruence. Qed.

Lemma occurs_in_end (a sub : string) : occurs_in sub (a ++ sub)%string.
Proof. exists a, EmptyString. now rewrite append_empty_r. Qed.

Lemma startswith_occurs (s p : string) :
  Str.startswith s p = true <-> exists post, s = (p ++ post)%string.
Proof. apply prefix_occurs. Qed.

Lemma join_relative (a b : string) :
  Str.startswith b "/" = false ->
  OsPath.join a b = (a ++ b)%string
  \/ OsPath.join a b = (a ++ String OsPath.sep b)%string.
Proof.
  intros Hrel. unfold OsPath.join.
  change (String OsPath.sep EmptyString) with "/"%string.
  rewrite Hrel.
  destruct (String.eqb a EmptyString || Str.endswith a "/"); auto.
Qed.

Lemma join_endswith (a b suffix : string) :
  Str.endswith b suffix = true ->
  Str.endswith (OsPath.join a b) suffix = true.
Proof.
  intros Hend. apply endswith_occurs in Hend. destruct Hend as [pre ->].
  apply endswith_occurs. unfold OsPath.join.
  destruct (Str.startswith _ _); [eauto|].
  destruct (String.eqb a EmptyString || Str.endswith a _).
  - exists (a ++ pre)%string. now rewrite append_assoc.
  - exists (a ++ String OsPath.sep pre)%string. now rewrite append_assoc.
Qed.

Lemma join_startswith (a b : string) :
  Str.startswith b "/" = false ->
  Str.startswith (OsPath.join a b) a = true.
Proof.
  intros Hrel. apply startswith_occurs.
  destruct (join_relative a b Hrel) as [-> | ->]; eauto.
Qed.

Lemma append_inj_l (a b b' : string) :
  (a ++ b)%string = (a ++ b')%string -> b = b'.
Proof. induction a; simpl; intros H; [exact H | inversion H; auto]. Qed.

Lemma join_inj (a b b' : string) :
  Str.startswith b "/" = false -> Str.startswith b' "/" = false ->
  OsPath.join a b = OsPath.join a b' -> b = b'.
Proof.
  intros Hb Hb'. unfold OsPath.join.
  change (String OsPath.sep EmptyString) with "/"%string.
  rewrite Hb, Hb'.
  destruct (String.eqb a EmptyString || Str.endswith a "/"); intros H.
  - now apply append_inj_l in H.
  - apply append_inj_l in H. now inversion H.
Qed.

(* ------------------------------------------------------------------ *)
(** ** The patch-table locator *)

(** X1: [get_patch_csv_from_patch_folder] returns exactly when the folder
    is a directory in which [patches.csv] exists, and then the path it
    returns is that of the file it tested: it exists, starts with the
    folder and ends with [patches.csv].  It raises [PatchesNotFoundError]
    exactly for a directory without the file and [SlideNotFoundError]
    exactly for a folder that is no directory, and the message of either
    error contains the folder. *)
Theorem get_patch_csv_from_patch_folder_cases (fs : filesystem)
    (patch_folder : string) :
  (forall patch_file,
     get_patch_csv_from_patch_folder fs patch_folder = Return patch_file <->
     isdir fs patch_folder = true
     /\ patch_file = OsPath.join patch_folder "patches.csv"
     /\ exists_ fs patch_file = true)
  /\ (forall patch_file,
        get_patch_csv_from_patch_folder fs patch_folder = Return patch_file ->
        Str.startswith patch_file patch_folder = true
        /\ Str.endswith patch_file "patches.csv" = true)
  /\ ((exists msg, get_patch_csv_from_patch_folder fs patch_folder
                   = Raise (PatchesNotFoundError msg))
      <-> isdir fs patch_folder = true
          /\ exists_ fs (OsPath.join patch_folder "patches.csv") = false)
  /\ ((exists msg, get_patch_csv_from_patch_folder fs patch_folder
                   = Raise (SlideNotFoundError msg))
      <-> isdir fs patch_folder = false)
  /\ (forall e,
        get_patch_csv_from_patch_folder fs patch_folder = Raise e ->
        occurs_in patch_folder (str e)).
Proof.
  unfold get_patch_csv_from_patch_folder.
  split; [|split; [|split; [|split]]].
  - intros patch_file.
    destruct (isdir fs patch_folder);
      [destruct (exists_ fs (OsPath.join patch_folder "patches.csv")) eqn:Hex|].
    + split.
      * intros H; inversion H; subst. auto.
      * intros (_ & -> & _). reflexivity.
    + split; [discriminate | intros (_ & -> & H); congruence].
    + split; [discriminate | intros (H & _); discriminate].
  - intros patch_file.
    destruct (isdir fs patch_folder); [|discriminate].
    destruct (exists_ fs (OsPath.join patch_folder "patches.csv"));
      [|discriminate].
    intros H; inversion H; subst. split.
    + now apply join_startswith.
    + now apply join_endswith.
  - destruct (isdir fs patch_folder);
      [destruct (exists_ fs (OsPath.join patch_folder "patches.csv"))|].
    + split; [intros [msg H]; discriminate | intros [_ H]; discriminate].
    + split; [auto | eauto].
    + split; [intros [msg H]; discriminate | intros [H _]; discriminate].
  - destruct (isdir fs patch_folder);
      [destruct (exists_ fs (OsPath.join patch_folder "patches.csv"))|].
    + split; [intros [msg H]; discriminate | discriminate].
    + split; [intros [msg H]; discriminate | discriminate].
    + split; [auto | eauto].
  - intros e.
    destruct (isdir fs patch_folder);
      [destruct (exists_ fs (OsPath.join patch_folder "patches.csv"))|].
    + discriminate.
    + intros H.
      replace e with
        (PatchesNotFoundError
           ("Could not find extracted patches for the slide: "
              ++ patch_folder)) by congruence.
      cbn [str]. apply occurs_in_end.
    + intros H.
      replace e with
        (SlideNotFoundError
           ("Could not find a patch folder at: " ++ patch_folder ++ "!!!"))
        by congruence.
      cbn [str]. apply occurs_in_middle.
Qed.

Lemma get_patch_csv_from_patch_folder_cases_witness :
  Str.startswith "/P/slideA/patches.csv" "/P/slideA" = true
  /\ Str.endswith "/P/slideA/patches.csv" "patches.csv" = true.
Proof.
  apply (proj1 (proj2 (get_patch_csv_from_patch_folder_cases Sample.fs
                         "/P/slideA")) "/P/slideA/patches.csv").
  reflexivity.
Defined.

(* ------------------------------------------------------------------ *)
(** ** More on the project walker *)

Lemma keep_flag_fold (exclude : list string) (name : string) (keep : bool) :
  fold_left (fun keep ex => if Str.contains ex name then false else keep)
    exclude keep
  = keep && forallb (fun ex => negb (Str.contains ex name)) exclude.
Proof.
  revert keep; induction exclude as [|ex exclude IH]; intros keep; simpl.
  - now rewrite andb_true_r.
  - rewrite IH. destruct (Str.contains ex name), keep; reflexivity.
Qed.

Lemma keep_name_forallb (exclude : list string) (name : string) :
  keep_name exclude name
  = forallb (fun ex => negb (Str.contains ex name)) exclude.
Proof. unfold keep_name. now rewrite keep_flag_fold. Qed.

Lemma walk_names (fs : filesystem) (project : string)
    (exclude names : list string) :
  map fst (walk fs project exclude names)
  = filter (fun name =>
              forallb (fun ex => negb (Str.contains ex name)) exclude
              && isdir fs (OsPath.join project name)) names.
Proof.
  induction names as [|n names IH]; simpl; [reflexivity|].
  rewrite <- keep_name_forallb.
  destruct (keep_name exclude n); simpl; [|exact IH].
  destruct (isdir fs (OsPath.join project n)); simpl; [|exact IH].
  now rewrite IH.
Qed.

Lemma walk_folders (fs : filesystem) (project : string)
    (exclude names : list string) :
  map snd (walk fs project exclude names)
  = map (OsPath.join project) (map fst (walk fs project exclude names)).
Proof.
  induction names as [|n names IH]; simpl; [reflexivity|].
  destruct (keep_name exclude n); [|exact IH].
  destruct (isdir fs (OsPath.join project n)); [|exact IH].
  simpl. now rewrite IH.
Qed.

Lemma walk_complete (fs : filesystem) (project : string)
    (exclude names : list string) (name : string) :
  In name names -> keep_name exclude name = true ->
  isdir fs (OsPath.join project name) = true ->
  In (name, OsPath.join project name) (walk fs project exclude names).
Proof.
  intros Hin Hkeep Hdir.
  induction names as [|n names IH]; simpl; [contradiction|].
  destruct Hin as [-> | Hin].
  - rewrite Hkeep, Hdir. now left.
  - destruct (keep_name exclude n); [|auto].
    destruct (isdir fs (OsPath.join project n)); [right|]; auto.
Qed.

Lemma keep_name_true (exclude : list string) (name : string) :
  keep_name exclude name = true <->
  forall ex, In ex exclude -> ~ occurs_in ex name.
Proof.
  split.
  - intros Hkeep ex Hin Hocc.
    assert (keep_name exclude name = false)
      by (apply keep_name_false; eauto).
    congruence.
  - intros Hnone. destruct (keep_name exclude name) eqn:Hkeep; [reflexivity|].
    apply keep_name_false in Hkeep. destruct Hkeep as (ex & Hin & Hocc).
    elim (Hnone ex Hin Hocc).
Qed.

(** X2: over a project folder that is a directory the walker ends
    normally, and what it yields is the listing, in listing order, cut
    down to the names that hold no exclude term and that are directories
    of the project, each paired with its path joined to the project
    folder: an entry is yielded if and only if it is such a name with
    that path. *)
Theorem walker_yields_kept_directories (fs : filesystem) (project : string)
    (exclude : list string) :
  isdir fs project = true ->
  raised (get_patch_folders_in_project fs project exclude) = None
  /\ map fst (yielded (get_patch_folders_in_project fs project exclude))
     = filter (fun name =>
                 forallb (fun ex => negb (Str.contains ex name)) exclude
                 && isdir fs (OsPath.join project name))
         (listdir fs project)
  /\ map snd (yielded (get_patch_folders_in_project fs project exclude))
     = map (OsPath.join project)
         (map fst (yielded (get_patch_folders_in_project fs project exclude)))
  /\ (forall name patch_folder,
        In (name, patch_folder)
           (yielded (get_patch_folders_in_project fs project exclude))
        <-> In name (listdir fs project)
            /\ (forall ex, In ex exclude -> ~ occurs_in ex name)
            /\ patch_folder = OsPath.join project name
            /\ isdir fs patch_folder = true).
Proof.
  intros Hdir. unfold get_patch_folders_in_project. rewrite Hdir; simpl.
  split; [reflexivity | split; [apply walk_names | split]].
  - apply walk_folders.
  - intros name patch_folder. split.
    + intros Hin. apply walk_In in Hin.
      destruct Hin as (Hn & Hk & -> & Hd).
      rewrite keep_name_true in Hk. auto.
    + intros (Hn & Hk & -> & Hd).
      apply walk_complete; [exact Hn | now apply keep_name_true | exact Hd].
Qed.

Lemma walker_yields_kept_directories_witness :
  map fst (yielded (get_patch_folders_in_project Sample.fs "/P"
                      default_exclude))
  = ["slideA"; "slideB"; "slideC"; "slideD"].
Proof.
  rewrite (proj1 (proj2 (walker_yields_kept_directories Sample.fs "/P"
                           default_exclude eq_refl))).
  reflexivity.
Defined.

(** X3: an empty string in the exclude list empties the walk: the empty
    string occurs in every name, so over a project folder that is a
    directory the walker yields nothing and ends normally, whatever the
    folder holds. *)
Theorem walker_empty_exclude_term (fs : filesystem) (project : string)
    (exclude : list string) :
  isdir fs project = true -> In EmptyString exclude ->
  get_patch_folders_in_project fs project exclude = Gen [] None.
Proof.
  intros Hdir Hin. unfold get_patch_folders_in_project.
  rewrite Hdir; simpl. f_equal.
  apply walk_all_passed_over. apply Forall_forall. intros name _.
  left. exists EmptyString. split; [exact Hin|].
  exists EmptyString, name. reflexivity.
Qed.

Lemma walker_empty_exclude_term_witness :
  get_patch_folders_in_project Sample.fs "/P" ["annotation"; ""]
  = Gen [] None.
Proof.
  apply (walker_empty_exclude_term Sample.fs "/P" ["annotation"; ""]).
  - reflexivity.
  - right; left; reflexivity.
Defined.

(** X4: lengthening the exclude list never adds an entry: what the walker
    yields for the longer list it also yields for the shorter one, and it
    yields of the shorter list's entries exactly those whose name holds
    none of the added terms. *)
Theorem walker_exclude_monotone (fs : filesystem) (project : string)
    (exclude more : list string) (name patch_folder : string) :
  In (name, patch_folder)
     (yielded (get_patch_folders_in_project fs project (exclude ++ more)))
  <-> In (name, patch_folder)
         (yielded (get_patch_folders_in_project fs project exclude))
      /\ (forall ex, In ex more -> ~ occurs_in ex name).
Proof.
  unfold get_patch_folders_in_project.
  destruct (isdir fs project); simpl; [|tauto].
  split.
  - intros Hin. apply walk_In in Hin. destruct Hin as (Hn & Hk & -> & Hd).
    rewrite keep_name_true in Hk. split.
    + apply walk_complete; auto. apply keep_name_true.
      intros ex Hex. apply Hk, in_or_app. now left.
    + intros ex Hex. apply Hk, in_or_app. now right.
  - intros [Hin Hmore]. apply walk_In in Hin.
    destruct Hin as (Hn & Hk & -> & Hd).
    rewrite keep_name_true in Hk.
    apply walk_complete; auto. apply keep_name_true.
    intros ex Hex. apply in_app_or in Hex. destruct Hex; auto.
Qed.

(** X5: when the listing of the project folder names no entry twice and
    no name in it starts with the separator, the entries the walker
    yields have pairwise different names and pairwise different patch
    folders. *)
Theorem walker_distinct_folders (fs : filesystem) (project : string)
    (exclude : list string) :
  NoDup (listdir fs project) ->
  Forall (fun name => Str.startswith name "/" = false)
    (listdir fs project) ->
  NoDup (map fst (yielded (get_patch_folders_in_project fs project exclude)))
  /\ NoDup
       (map snd (yielded (get_patch_folders_in_project fs project exclude))).
Proof.
  intros Hnodup Hrel. unfold get_patch_folders_in_project.
  destruct (isdir fs project); simpl; [|split; constructor].
  assert (Hnames : NoDup (map fst (walk fs project exclude
                                     (listdir fs project)))).
  { rewrite walk_names. now apply NoDup_filter. }
  split; [exact Hnames|].
  rewrite walk_folders.
  apply NoDup_map_NoDup_ForallPairs; [|exact Hnames].
  intros a b Ha Hb Heq.
  rewrite walk_names in Ha, Hb. apply filter_In in Ha, Hb.
  rewrite Forall_forall in Hrel.
  apply (join_inj project a b); auto; apply Hrel; tauto.
Qed.

Lemma walker_distinct_folders_witness :
  NoDup (map snd (yielded (get_patch_folders_in_project Sample.fs "/P"
                             default_exclude))).
Proof.
  apply (walker_distinct_folders Sample.fs "/P" default_exclude).
  - repeat (constructor; [simpl; intuition discriminate|]). constructor.
  - repeat (apply Forall_cons; [reflexivity|]). apply Forall_nil.
Defined.

(* ------------------------------------------------------------------ *)
(** ** More on the slide-file locator *)

Lemma first_slide_cases (folder slide_name : string) (names : list string) :
  (first_slide folder slide_name names = None
   /\ Forall (fun n => ~ is_candidate slide_name n) names)
  \/ (exists before name after,
        names = before ++ name :: after
        /\ Forall (fun n => ~ is_candidate slide_name n) before
        /\ is_candidate slide_name name
        /\ first_slide folder slide_name names
           = Some (OsPath.join folder name)).
Proof.
  induction names as [|n names IH]; simpl.
  - left. split; [reflexivity | constructor].
  - destruct (slide_match slide_name n) eqn:Hm.
    + right. exists [], n, names.
      split; [reflexivity | split; [constructor | split; [|reflexivity]]].
      now apply slide_match_candidate.
    + assert (Hn : ~ is_candidate slide_name n).
      { rewrite <- slide_match_candidate. congruence. }
      destruct IH as [[Hnone Hall] | (before & name & after & -> & Hb & Hc & Hf)].
      * left. split; [exact Hnone | now constructor].
      * right. exists (n :: before), name, after.
        split; [reflexivity | split; [now constructor | auto]].
Qed.

Lemma rfind_from_ge (c : ascii) (s : string) (i last : Z) :
  (last <= i)%Z -> (last <= Str.rfind_from c s i last)%Z.
Proof.
  revert i last; induction s as [|a s IH]; intros i last Hle; simpl.
  - lia.
  - destruct (Ascii.eqb a c).
    + specialize (IH (i + 1)%Z i). lia.
    + specialize (IH (i + 1)%Z last). lia.
Qed.

(** The base name [splitext] leaves of a name that does not start with a
    dot is not empty and does not start with a dot either. *)
Lemma splitext_base_shown (name : string) :
  name <> EmptyString -> Str.startswith name "." = false ->
  fst (OsPath.splitext name) <> EmptyString
  /\ Str.startswith (fst (OsPath.splitext name)) "." = false.
Proof.
  intros Hne Hdot. unfold OsPath.splitext.
  set (sepIndex := Str.rfind name OsPath.sep).
  set (dotIndex := Str.rfind name OsPath.extsep).
  destruct ((sepIndex <? dotIndex)%Z
            && OsPath.has_non_dot name (Z.to_nat (sepIndex + 1))
                 (Z.to_nat (dotIndex - (sepIndex + 1)))) eqn:Hcond;
    [|simpl; auto].
  apply andb_true_iff in Hcond. destruct Hcond as [_ Hloop].
  assert (Hsep : (-1 <= sepIndex)%Z)
    by (apply rfind_from_ge; lia).
  destruct (Z.to_nat (dotIndex - (sepIndex + 1))) as [|todo] eqn:Htodo;
    [discriminate|].
  cbn [fst]. unfold Str.slice_to.
  destruct (Z.to_nat dotIndex) as [|k] eqn:Hk; [lia|].
  destruct name as [|c name]; [now elim Hne|].
  cbn [String.substring]. split; [discriminate|].
  now rewrite startswith_dot_cons in *.
Qed.

Lemma is_candidate_shown (slide_name name : string) :
  is_candidate slide_name name ->
  slide_name <> EmptyString /\ Str.startswith slide_name "." = false.
Proof.
  intros (Hend & Hdot & <-).
  apply splitext_base_shown; [|exact Hdot].
  intros ->. discriminate.
Qed.

(** X6: a path [get_slide_file] returns is that of a listed entry of the
    slide folder, a directory: the entry passes the three tests, no entry
    listed before it does, the path is the entry joined to the folder and
    it ends with [.mrxs]. *)
Theorem get_slide_file_returns (fs : filesystem) (folder slide_name : string)
    (path : string) :
  get_slide_file fs folder slide_name = Return path ->
  isdir fs folder = true
  /\ Str.endswith path ".mrxs" = true
  /\ exists before name after,
       listdir fs folder = before ++ name :: after
       /\ Forall (fun n => ~ is_candidate slide_name n) before
       /\ is_candidate slide_name name
       /\ path = OsPath.join folder name.
Proof.
  unfold get_slide_file.
  destruct (isdir fs folder); simpl; [|discriminate].
  destruct (first_slide_cases folder slide_name (listdir fs folder))
    as [[Hnone _] | (before & name & after & Hls & Hb & Hc & Hf)].
  - rewrite Hnone. discriminate.
  - rewrite Hf. intros H; inversion H; subst path.
    split; [reflexivity | split].
    + apply join_endswith. apply Hc.
    + exists before, name, after. auto.
Qed.

Lemma get_slide_file_returns_witness :
  isdir Sample.fs "/S" = true
  /\ Str.endswith "/S/slideB.mrxs" ".mrxs" = true
  /\ exists before name after,
       listdir Sample.fs "/S" = before ++ name :: after
       /\ Forall (fun n => ~ is_candidate "slideB" n) before
       /\ is_candidate "slideB" name
       /\ "/S/slideB.mrxs" = OsPath.join "/S" name.
Proof.
  apply (get_slide_file_returns Sample.fs "/S" "slideB" "/S/slideB.mrxs").
  reflexivity.
Defined.

(** X7: over a slide folder whose listing holds file names only (no
    separator inside), the outcome does not depend on the listing order:
    [get_slide_file] returns a path if and only if the slide name is not
    empty, does not start with a dot and the file [slide_name.mrxs] is
    listed, and the path is then that file joined to the folder. *)
Theorem get_slide_file_plain_listing (fs : filesystem)
    (folder slide_name : string) (path : string) :
  isdir fs folder = true ->
  Forall (fun n => ~ occurs_in "/" n) (listdir fs folder) ->
  (get_slide_file fs folder slide_name = Return path
   <-> In (slide_name ++ ".mrxs")%string (listdir fs folder)
       /\ slide_name <> EmptyString
       /\ Str.startswith slide_name "." = false
       /\ path = OsPath.join folder (slide_name ++ ".mrxs")).
Proof.
  intros Hdir Hplain. rewrite Forall_forall in Hplain.
  unfold get_slide_file. rewrite Hdir; simpl.
  destruct (first_slide_cases folder slide_name (listdir fs folder))
    as [[Hnone Hall] | (before & name & after & Hls & Hb & Hc & Hf)].
  - rewrite Hnone. split; [discriminate|].
    intros (Hin & Hne & Hdot & _). exfalso.
    rewrite Forall_forall in Hall. apply (Hall _ Hin).
    apply is_candidate_plain; auto.
  - rewrite Hf.
    assert (Hin : In name (listdir fs folder))
      by (rewrite Hls; apply in_or_app; right; now left).
    apply is_candidate_plain in Hc; [|now apply Hplain].
    destruct Hc as (-> & Hdot & Hne).
    split.
    + intros H; inversion H. auto.
    + intros (_ & _ & _ & ->). reflexivity.
Qed.

Lemma get_slide_file_plain_listing_witness :
  get_slide_file Sample.fs "/S" "slideC" = Return "/S/slideC.mrxs".
Proof.
  apply (get_slide_file_plain_listing Sample.fs "/S" "slideC"
           "/S/slideC.mrxs").
  - reflexivity.
  - repeat (apply Forall_cons;
            [intros H; apply contains_occurs in H; discriminate|]).
    apply Forall_nil.
  - split; [simpl; tauto | split; [discriminate | split; reflexivity]].
Defined.

(** X8: a slide name that is empty or starts with a dot is never
    resolved: whatever the slide folder lists, [get_slide_file] raises
    [SlideNotFoundError] for it. *)
Theorem get_slide_file_hidden_name (fs : filesystem)
    (folder slide_name : string) :
  slide_name = EmptyString \/ Str.startswith slide_name "." = true ->
  exists msg,
    get_slide_file fs folder slide_name = Raise (SlideNotFoundError msg).
Proof.
  intros Hhidden. unfold get_slide_file.
  destruct (negb (isdir fs folder)); [eauto|].
  destruct (first_slide_cases folder slide_name (listdir fs folder))
    as [[Hnone _] | (before & name & after & _ & _ & Hc & _)].
  - rewrite Hnone. eauto.
  - apply is_candidate_shown in Hc. destruct Hc as [Hne Hdot].
    destruct Hhidden; congruence.
Qed.

Lemma get_slide_file_hidden_name_witness :
  exists msg,
    get_slide_file Sample.fs "/S" ".slideD" = Raise (SlideNotFoundError msg).
Proof.
  apply (get_slide_file_hidden_name Sample.fs "/S" ".slideD").
  right. reflexivity.
Defined.

(* ------------------------------------------------------------------ *)
(** ** More on the labeled-patch extractor *)

Lemma iter_rows_stuck (cols : list string) (column key : string)
    (rs : list (list value)) :
  (forall row, row_triple cols column row = Raise (KeyError key)) ->
  iter_rows cols column rs
  = Gen [] (match rs with [] => None | _ :: _ => Some (KeyError key) end).
Proof.
  intros Hstuck. destruct rs as [|row rs]; simpl; [reflexivity|].
  now rewrite Hstuck.
Qed.

Lemma cell_missing (cols : list string) (row : list value) (c : string) :
  ~ In c cols -> Pandas.cell cols row c = Raise (KeyError c).
Proof.
  intros Hnot. apply index_of_None in Hnot.
  unfold Pandas.cell. now rewrite Hnot.
Qed.

Lemma row_triple_missing_x (cols : list string) (column : string) :
  ~ In "x" cols ->
  forall row, row_triple cols column row = Raise (KeyError "x").
Proof.
  intros Hx row. unfold row_triple. now rewrite cell_missing.
Qed.

Lemma row_triple_missing_y (df : DataFrame) (column : string) :
  In "x" (columns df) -> ~ In "y" (columns df) ->
  forall row, row_triple (columns df) column row = Raise (KeyError "y").
Proof.
  intros Hx Hy row. unfold row_triple.
  rewrite (cell_field df row "x" Hx); simpl. now rewrite cell_missing.
Qed.

(** The extractor once the table is read and has the [level] column and
    the label column. *)
Lemma handle_labeled_patches_filtered (fs : filesystem) (patch_file : string)
    (lvl : Z) (column : string) (df : DataFrame) :
  read_csv fs patch_file = Some df ->
  In "level" (columns df) -> In column (columns df) ->
  handle_labeled_patches fs patch_file lvl column
  = iter_rows (columns df) column (Pandas.iterrows (level_view df lvl)).
Proof.
  intros Hread Hl Hc. unfold handle_labeled_patches.
  rewrite Hread, (level_filter_returns df lvl Hl).
  assert (Hhas : Pandas.has_column (level_view df lvl) column = true)
    by now apply has_column_In.
  now rewrite Hhas.
Qed.

Lemma iter_rows_stuck_view (df : DataFrame) (lvl : Z) (column key : string) :
  (forall row, row_triple (columns df) column row = Raise (KeyError key)) ->
  iter_rows (columns df) column (Pandas.iterrows (level_view df lvl))
  = Gen [] (match rows_at_level df lvl with
            | [] => None
            | _ :: _ => Some (KeyError key)
            end).
Proof.
  intros Hstuck. rewrite (iter_rows_stuck _ _ key) by exact Hstuck.
  unfold Pandas.iterrows, level_view. cbn [columns dtypes rows].
  now destruct (rows_at_level df lvl).
Qed.

Lemma iter_rows_series_view (df : DataFrame) (lvl : Z) (column : string) :
  In "x" (columns df) -> In "y" (columns df) -> In column (columns df) ->
  iter_rows (columns df) column (Pandas.iterrows (level_view df lvl))
  = Gen (map (triple_of df column) (rows_at_level df lvl)) None.
Proof.
  intros Hx Hy Hc. unfold Pandas.iterrows, level_view.
  cbn [columns dtypes rows]. now apply iter_rows_series.
Qed.

(** The two ways the extractor can end. *)
Lemma handle_labeled_patches_outcome (fs : filesystem)
    (patch_file : string) (lvl : Z) (column : string) :
  (exists e,
     handle_labeled_patches fs patch_file lvl column = Gen [] (Some e))
  \/ (exists df,
        read_csv fs patch_file = Some df
        /\ In "level" (columns df) /\ In column (columns df)
        /\ handle_labeled_patches fs patch_file lvl column
           = Gen (map (triple_of df column) (rows_at_level df lvl)) None).
Proof.
  destruct (read_csv fs patch_file) as [df|] eqn:Hread;
    [|left; unfold handle_labeled_patches; rewrite Hread; eauto].
  destruct (in_dec string_dec "level" (columns df)) as [Hl | Hl];
    [|left; unfold handle_labeled_patches;
      rewrite Hread, (level_filter_raises df lvl Hl); eauto].
  destruct (in_dec string_dec column (columns df)) as [Hc | Hc].
  - rewrite (handle_labeled_patches_filtered fs patch_file lvl column df)
      by assumption.
    destruct (in_dec string_dec "x" (columns df)) as [Hx | Hx];
      [destruct (in_dec string_dec "y" (columns df)) as [Hy | Hy]|].
    + right. exists df. rewrite iter_rows_series_view by assumption.
      repeat split; assumption.
    + rewrite (iter_rows_stuck_view _ _ _ "y")
        by now apply row_triple_missing_y.
      destruct (rows_at_level df lvl) eqn:Hrows; [right | left; eauto].
      exists df. rewrite Hrows. repeat split; assumption.
    + rewrite (iter_rows_stuck_view _ _ _ "x")
        by now apply row_triple_missing_x.
      destruct (rows_at_level df lvl) eqn:Hrows; [right | left; eauto].
      exists df. rewrite Hrows. repeat split; assumption.
  - left. unfold handle_labeled_patches.
    rewrite Hread, (level_filter_returns df lvl Hl).
    assert (Hhas : Pandas.has_column
                     (level_view df lvl)
                     column = false).
    { destruct (Pandas.has_column _ column) eqn:Hhas; [|reflexivity].
      apply has_column_In in Hhas. contradiction. }
    rewrite Hhas; simpl. eauto.
Qed.

(** X9: the extractor is all or nothing.  When it raises, it has yielded
    nothing: it never raises after a first row.  When it ends normally,
    the table was read, has the [level] column and the label column, and
    what was yielded is the triple of every row at the queried level, in
    table order, each value as the row series holds it (brought to the
    dtype of the array of the table). *)
Theorem handle_labeled_patches_all_or_nothing (fs : filesystem)
    (patch_file : string) (lvl : Z) (column : string) :
  (forall e,
     raised (handle_labeled_patches fs patch_file lvl column) = Some e ->
     yielded (handle_labeled_patches fs patch_file lvl column) = [])
  /\ (raised (handle_labeled_patches fs patch_file lvl column) = None ->
      exists df,
        read_csv fs patch_file = Some df
        /\ In "level" (columns df) /\ In column (columns df)
        /\ yielded (handle_labeled_patches fs patch_file lvl column)
           = map (fun row =>
                    (as_yielded df (field df "x" row),
                     as_yielded df (field df "y" row),
                     as_yielded df (field df column row)))
               (rows_at_level df lvl)).
Proof.
  destruct (handle_labeled_patches_outcome fs patch_file lvl column)
    as [[e0 Hg] | (df & Hread & Hl & Hc & Hg)]; rewrite Hg; simpl.
  - split; [reflexivity | discriminate].
  - split; [discriminate|]. intros _. exists df. auto.
Qed.

Lemma handle_labeled_patches_all_or_nothing_witness :
  yielded (handle_labeled_patches Sample.fs "/P/slideC/patches.csv" 0 "tumor")
  = [].
Proof.
  apply (proj1 (handle_labeled_patches_all_or_nothing Sample.fs
                  "/P/slideC/patches.csv" 0%Z "tumor")
           (UnknownColumnError
              "Column tumor does not exists in /P/slideC/patches.csv!!!")).
  reflexivity.
Defined.

(** X10: the order in which the extractor finds fault with a table.  A
    file pandas cannot read ends it with the error of the read.  On a
    table that was read, a missing [level] column gives [KeyError] for
    [level] whatever the label column; with [level] present, a missing
    label column gives [UnknownColumnError] naming the column and the
    file, whatever the rows; with both present, a missing [x] column (or a
    missing [y] column, [x] being there) gives [KeyError] for it when some
    row is at the queried level, and goes unnoticed, nothing being
    yielded, when none is. *)
Theorem handle_labeled_patches_error_order (fs : filesystem)
    (patch_file : string) (lvl : Z) (column : string) :
  (read_csv fs patch_file = None ->
   handle_labeled_patches fs patch_file lvl column
   = Gen [] (Some (ReadCsvError patch_file)))
  /\ (forall df,
        read_csv fs patch_file = Some df ->
        (~ In "level" (columns df) ->
         handle_labeled_patches fs patch_file lvl column
         = Gen [] (Some (KeyError "level")))
        /\ (In "level" (columns df) -> ~ In column (columns df) ->
            handle_labeled_patches fs patch_file lvl column
            = Gen [] (Some (UnknownColumnError
                              ("Column " ++ column ++ " does not exists in "
                                 ++ patch_file ++ "!!!"))))
        /\ (In "level" (columns df) -> In column (columns df) ->
            ~ In "x" (columns df) ->
            handle_labeled_patches fs patch_file lvl column
            = Gen [] (match rows_at_level df lvl with
                      | [] => None
                      | _ :: _ => Some (KeyError "x")
                      end))
        /\ (In "level" (columns df) -> In column (columns df) ->
            In "x" (columns df) -> ~ In "y" (columns df) ->
            handle_labeled_patches fs patch_file lvl column
            = Gen [] (match rows_at_level df lvl with
                      | [] => None
                      | _ :: _ => Some (KeyError "y")
                      end))).
Proof.
  split.
  - intros Hread. unfold handle_labeled_patches. now rewrite Hread.
  - intros df Hread. split; [|split; [|split]].
    + intros Hl. unfold handle_labeled_patches.
      now rewrite Hread, (level_filter_raises df lvl Hl).
    + intros Hl Hc. unfold handle_labeled_patches.
      rewrite Hread, (level_filter_returns df lvl Hl).
      assert (Hhas : Pandas.has_column
                       (level_view df lvl) column = false).
      { destruct (Pandas.has_column _ column) eqn:Hhas; [|reflexivity].
        apply has_column_In in Hhas. contradiction. }
      now rewrite Hhas.
    + intros Hl Hc Hx.
      rewrite (handle_labeled_patches_filtered fs patch_file lvl column df)
        by assumption.
      apply iter_rows_stuck_view. now apply row_triple_missing_x.
    + intros Hl Hc Hx Hy.
      rewrite (handle_labeled_patches_filtered fs patch_file lvl column df)
        by assumption.
      apply iter_rows_stuck_view. now apply row_triple_missing_y.
Qed.

Lemma handle_labeled_patches_error_order_witness :
  handle_labeled_patches Sample.fs "/P/slideB/patches.csv" 0 "tumor"
    = Gen [] (Some (ReadCsvError "/P/slideB/patches.csv"))
  /\ handle_labeled_patches Sample.fs "/P/slideC/patches.csv" 0 "tumor"
     = Gen [] (Some (UnknownColumnError
                       "Column tumor does not exists in /P/slideC/patches.csv!!!")).
Proof.
  split.
  - apply (proj1 (handle_labeled_patches_error_order Sample.fs
                    "/P/slideB/patches.csv" 0%Z "tumor")).
    reflexivity.
  - apply (proj1 (proj2 (proj2 (handle_labeled_patches_error_order Sample.fs
                                  "/P/slideC/patches.csv" 0%Z "tumor")
                           Sample.tableC eq_refl))).
    + simpl; tauto.
    + simpl. intros [H | [H | [H | []]]]; discriminate.
Defined.

(* ------------------------------------------------------------------ *)
(** ** More on the dataset assembler *)

Section AssemblerComposition.

Variable fs : filesystem.
Variable self : PathaiaHandler.
Variable lvl : Z.
Variable dim : Z * Z.
Variable label : string.

(** A turn of the loop does not look at the locals: it adds to them what
    it would add to empty ones, and ends the same way. *)
Lemma slide_step_shift (entry : string * string) (st : frame) :
  let alone := slide_step fs self lvl dim label entry empty_frame in
  let turn := slide_step fs self lvl dim label entry st in
  patch_list (fst turn) = patch_list st ++ patch_list (fst alone)
  /\ labels (fst turn) = labels st ++ labels (fst alone)
  /\ warned (fst turn) = warned st ++ warned (fst alone)
  /\ snd turn = snd alone.
Proof.
  destruct entry as [name patch_folder]. unfold slide_step, try_block.
  destruct (get_slide_file fs (slide_folder self) name) as [slide_path|e].
  - destruct (get_patch_csv_from_patch_folder fs patch_folder)
      as [patch_file|e].
    + unfold for_gen. rewrite !for_each_append_patch.
      destruct (raised (handle_labeled_patches fs patch_file lvl label))
        as [e|]; [destruct (caught e)|]; simpl;
        rewrite ?app_nil_r; auto.
    + destruct (caught e); simpl; rewrite ?app_nil_r; auto.
  - destruct (caught e); simpl; rewrite ?app_nil_r; auto.
Qed.

Lemma for_each_concat (entries : list (string * string)) (st st' : frame) :
  for_each (slide_step fs self lvl dim label) entries st = (st', None) ->
  patch_list st'
  = patch_list st
      ++ flat_map
           (fun entry =>
              patch_list
                (fst (slide_step fs self lvl dim label entry empty_frame)))
           entries
  /\ labels st'
     = labels st
         ++ flat_map
              (fun entry =>
                 labels
                   (fst (slide_step fs self lvl dim label entry empty_frame)))
              entries
  /\ warned st'
     = warned st
         ++ flat_map
              (fun entry =>
                 warned
                   (fst (slide_step fs self lvl dim label entry empty_frame)))
              entries.
Proof.
  revert st; induction entries as [|entry entries IH]; intros st; simpl.
  - intros H; inversion H; subst. now rewrite !app_nil_r.
  - destruct (slide_step_shift entry st) as (Hp & Hl & Hw & _).
    destruct (slide_step fs self lvl dim label entry st) as [st1 [e|]];
      [discriminate|].
    intros Hrest. apply IH in Hrest. simpl in Hp, Hl, Hw.
    destruct Hrest as (Hp' & Hl' & Hw').
    rewrite Hp', Hl', Hw', Hp, Hl, Hw, <- !app_assoc. auto.
Qed.

Lemma list_patches_returned (pl : list patch) (labs : list value) :
  list_patches fs self lvl dim label = Return (pl, labs) ->
  exists st,
    for_each (slide_step fs self lvl dim label)
      (yielded (get_patch_folders_in_project fs (project_folder self)
                  default_exclude)) empty_frame = (st, None)
    /\ run_list_patches fs self lvl dim label = (st, None)
    /\ pl = patch_list st /\ labs = labels st.
Proof.
  unfold list_patches, run_list_patches, for_gen.
  destruct (for_each _ _ empty_frame) as [st [e|]]; [discriminate|].
  destruct (raised _); [discriminate|].
  intros H; inversion H. eauto.
Qed.

End AssemblerComposition.

(** X11: the data set is put together slide by slide.  When
    [list_patches] returns, its list of descriptors, its list of labels
    and the warnings it issued are the concatenations, in the order the
    walker yields the slide entries, of what each entry adds when it is
    processed alone on empty lists. *)
Theorem list_patches_concatenates (fs : filesystem) (self : PathaiaHandler)
    (lvl : Z) (dim : Z * Z) (label : string)
    (pl : list patch) (labs : list value) :
  list_patches fs self lvl dim label = Return (pl, labs) ->
  pl = flat_map
         (fun entry =>
            patch_list
              (fst (slide_step fs self lvl dim label entry empty_frame)))
         (yielded (get_patch_folders_in_project fs (project_folder self)
                     default_exclude))
  /\ labs = flat_map
              (fun entry =>
                 labels
                   (fst (slide_step fs self lvl dim label entry empty_frame)))
              (yielded (get_patch_folders_in_project fs (project_folder self)
                          default_exclude))
  /\ list_patches_warnings fs self lvl dim label
     = flat_map
         (fun entry =>
            warned
              (fst (slide_step fs self lvl dim label entry empty_frame)))
         (yielded (get_patch_folders_in_project fs (project_folder self)
                     default_exclude)).
Proof.
  intros Hret. apply list_patches_returned in Hret.
  destruct Hret as (st & Hloop & Hrun & -> & ->).
  apply for_each_concat in Hloop. destruct Hloop as (Hp & Hl & Hw).
  unfold list_patches_warnings. rewrite Hrun. simpl in *. auto.
Qed.

Lemma list_patches_concatenates_witness :
  [VStr "yes"; VStr "no"]
  = flat_map
      (fun entry =>
         labels (fst (slide_step Sample.fs Sample.handler 0 (256, 256)%Z
                        "tumor" entry empty_frame)))
      (yielded (get_patch_folders_in_project Sample.fs "/P" default_exclude)).
Proof.
  eapply (list_patches_concatenates Sample.fs Sample.handler 0%Z
            (256, 256)%Z "tumor").
  reflexivity.
Defined.

Lemma for_each_raised_In {A S : Type} (body : A -> S -> S * option exn)
    (xs : list A) (st st' : S) (e : exn) :
  for_each body xs st = (st', Some e) ->
  exists a st0, In a xs /\ body a st0 = (st', Some e).
Proof.
  revert st; induction xs as [|a xs IH]; intros st; simpl.
  - discriminate.
  - destruct (body a st) as [st1 [e1|]] eqn:Hb.
    + intros H; inversion H; subst. exists a, st. auto.
    + intros H. destruct (IH _ H) as (a' & st0 & Hin & Hb').
      exists a', st0. auto.
Qed.

(** The exceptions that can end the extractor, one by one. *)
Lemma handle_labeled_patches_raised_kinds (fs : filesystem)
    (patch_file : string) (lvl : Z) (column : string) (e : exn) :
  raised (handle_labeled_patches fs patch_file lvl column) = Some e ->
  e = ReadCsvError patch_file
  \/ e = KeyError "level" \/ e = KeyError "x" \/ e = KeyError "y"
  \/ e = UnknownColumnError
           ("Column " ++ column ++ " does not exists in "
              ++ patch_file ++ "!!!").
Proof.
  destruct (read_csv fs patch_file) as [df|] eqn:Hread;
    [|unfold handle_labeled_patches; rewrite Hread;
      intros H; inversion H; auto].
  destruct (in_dec string_dec "level" (columns df)) as [Hl | Hl];
    [|unfold handle_labeled_patches;
      rewrite Hread, (level_filter_raises df lvl Hl);
      intros H; inversion H; auto].
  destruct (in_dec string_dec column (columns df)) as [Hc | Hc].
  - rewrite (handle_labeled_patches_filtered fs patch_file lvl column df)
      by assumption.
    destruct (in_dec string_dec "x" (columns df)) as [Hx | Hx];
      [destruct (in_dec string_dec "y" (columns df)) as [Hy | Hy]|].
    + rewrite iter_rows_series_view by assumption. discriminate.
    + rewrite (iter_rows_stuck_view _ _ _ "y")
        by now apply row_triple_missing_y.
      destruct (rows_at_level df lvl); simpl; [discriminate|].
      intros H; inversion H; auto.
    + rewrite (iter_rows_stuck_view _ _ _ "x")
        by now apply row_triple_missing_x.
      destruct (rows_at_level df lvl); simpl; [discriminate|].
      intros H; inversion H; auto.
  - unfold handle_labeled_patches.
    rewrite Hread, (level_filter_returns df lvl Hl).
    assert (Hhas : Pandas.has_column (level_view df lvl) column = false).
    { destruct (Pandas.has_column _ column) eqn:Hhas; [|reflexivity].
      apply has_column_In in Hhas. contradiction. }
    rewrite Hhas. cbn [negb raised]. intros H; inversion H; auto 6.
Qed.

(** X13: an exception of the extractor that the [except] clause does not
    name ([KeyError], or the error of a failed read) aborts the whole
    call.  When the entries before a slide went through, the slide file
    and the table of the slide are found and the extractor raises such an
    exception, [list_patches] raises it, whatever entries follow; the
    rows gathered so far are not returned, and the warnings are those of
    the entries before. *)
Theorem list_patches_aborts (fs : filesystem) (self : PathaiaHandler)
    (lvl : Z) (dim : Z * Z) (label : string)
    (before after : list (string * string)) (name patch_folder : string)
    (st : frame) (slide_path patch_file : string) (e : exn) :
  get_patch_folders_in_project fs (project_folder self) default_exclude
  = Gen (before ++ (name, patch_folder) :: after) None ->
  for_each (slide_step fs self lvl dim label) before empty_frame
  = (st, None) ->
  get_slide_file fs (slide_folder self) name = Return slide_path ->
  get_patch_csv_from_patch_folder fs patch_folder = Return patch_file ->
  raised (handle_labeled_patches fs patch_file lvl label) = Some e ->
  caught e = false ->
  list_patches fs self lvl dim label = Raise e
  /\ list_patches_warnings fs self lvl dim label = warned st.
Proof.
  intros Hwalk Hbefore Hslide Hcsv Hraised Hc.
  assert (Hnil : yielded (handle_labeled_patches fs patch_file lvl label)
                 = []).
  { destruct (handle_labeled_patches_outcome fs patch_file lvl label)
      as [[e0 Hg] | (df & _ & _ & _ & Hg)]; rewrite Hg in *;
      [reflexivity | discriminate]. }
  assert (Hstep : slide_step fs self lvl dim label (name, patch_folder) st
                  = (st, Some e)).
  { unfold slide_step, try_block. rewrite Hslide, Hcsv.
    unfold for_gen. rewrite for_each_append_patch, Hnil, Hraised.
    rewrite extend_frame_nil. now rewrite Hc. }
  assert (Hrun : run_list_patches fs self lvl dim label = (st, Some e)).
  { unfold run_list_patches. rewrite Hwalk, for_gen_returned.
    rewrite for_each_app, Hbefore. cbn [for_each]. now rewrite Hstep. }
  unfold list_patches, list_patches_warnings. rewrite Hrun. auto.
Qed.

Lemma list_patches_aborts_witness :
  list_patches Sample.fs Sample.handler 0 (256, 256)%Z "x"
    = Return
        ([ {| slide := "/S/slideA.mrxs"; x := VInt 1; y := VInt 2;
              level := 0; dimensions := (256, 256)%Z |};
           {| slide := "/S/slideA.mrxs"; x := VInt 3; y := VInt 4;
              level := 0; dimensions := (256, 256)%Z |};
           {| slide := "/S/slideC.mrxs"; x := VInt 7; y := VInt 8;
              level := 0; dimensions := (256, 256)%Z |} ],
         [VInt 1; VInt 3; VInt 7])
  /\ list_patches
       {| isdir := isdir Sample.fs; exists_ := fun _ => true;
          listdir := listdir Sample.fs; read_csv := read_csv Sample.fs |}
       Sample.handler 0 (256, 256)%Z "x"
     = Raise (ReadCsvError "/P/slideB/patches.csv").
Proof.
  split; [reflexivity|].
  apply (list_patches_aborts
           {| isdir := isdir Sample.fs; exists_ := fun _ => true;
              listdir := listdir Sample.fs; read_csv := read_csv Sample.fs |}
           Sample.handler 0%Z (256, 256)%Z "x"
           [("slideA", "/P/slideA")]
           [("slideC", "/P/slideC"); ("slideD", "/P/slideD")]
           "slideB" "/P/slideB"
           {| patch_list :=
                [ {| slide := "/S/slideA.mrxs"; x := VInt 1; y := VInt 2;
                     level := 0; dimensions := (256, 256)%Z |};
                  {| slide := "/S/slideA.mrxs"; x := VInt 3; y := VInt 4;
                     level := 0; dimensions := (256, 256)%Z |} ];
              labels := [VInt 1; VInt 3];
              warned := [] |}
           "/S/slideB.mrxs" "/P/slideB/patches.csv"
           (ReadCsvError "/P/slideB/patches.csv"));
    reflexivity.
Defined.

(** X14: with a slide folder that is not a directory no slide file can be
    found: over a project folder that is a directory [list_patches] then
    returns two empty lists and issues, for every slide entry, the one
    warning that the slide folder could not be found. *)
Theorem list_patches_without_slide_folder (fs : filesystem)
    (self : PathaiaHandler) (lvl : Z) (dim : Z * Z) (label : string) :
  isdir fs (project_folder self) = true ->
  isdir fs (slide_folder self) = false ->
  list_patches fs self lvl dim label = Return ([], [])
  /\ list_patches_warnings fs self lvl dim label
     = map (fun _ =>
              "Could not find a slide folder at: " ++ slide_folder self
                ++ "!!!")%string
         (yielded (get_patch_folders_in_project fs (project_folder self)
                     default_exclude)).
Proof.
  intros Hproject Hslides.
  set (msg := ("Could not find a slide folder at: " ++ slide_folder self
                 ++ "!!!")%string).
  assert (Hstep : forall entry st,
            slide_step fs self lvl dim label entry st
            = (warn msg st, None)).
  { intros [name patch_folder] st. unfold slide_step, try_block.
    unfold get_slide_file. rewrite Hslides. reflexivity. }
  assert (Hloop : forall entries st,
            for_each (slide_step fs self lvl dim label) entries st
            = ({| patch_list := patch_list st; labels := labels st;
                  warned := warned st ++ map (fun _ => msg) entries |},
               None)).
  { induction entries as [|entry entries IH]; intros st; simpl.
    - rewrite app_nil_r. now destruct st.
    - rewrite Hstep, IH. simpl. now rewrite <- app_assoc. }
  assert (Hrun : run_list_patches fs self lvl dim label
            = ({| patch_list := []; labels := [];
                  warned :=
                    map (fun _ => msg)
                      (yielded (get_patch_folders_in_project fs
                                  (project_folder self) default_exclude)) |},
               None)).
  { unfold run_list_patches, get_patch_folders_in_project.
    rewrite Hproject. cbn [negb]. rewrite for_gen_returned, Hloop.
    reflexivity. }
  unfold list_patches, list_patches_warnings. rewrite Hrun. auto.
Qed.

Lemma list_patches_without_slide_folder_witness :
  list_patches Sample.fs
    {| slide_folder := "/nowhere"; project_folder := "/P" |}
    0 (256, 256)%Z "tumor"
  = Return ([], []).
Proof.
  apply (list_patches_without_slide_folder Sample.fs
           {| slide_folder := "/nowhere"; project_folder := "/P" |}
           0%Z (256, 256)%Z "tumor");
    reflexivity.
Defined.

Section AssemblerErrors.

Variable fs : filesystem.
Variable self : PathaiaHandler.
Variable lvl : Z.
Variable dim : Z * Z.
Variable label : string.

Lemma get_patch_csv_returns (patch_folder patch_file : string) :
  get_patch_csv_from_patch_folder fs patch_folder = Return patch_file ->
  patch_file = OsPath.join patch_folder "patches.csv".
Proof.
  unfold get_patch_csv_from_patch_folder.
  destruct (isdir fs patch_folder); [|discriminate].
  destruct (exists_ fs _); [|discriminate].
  intros H; now inversion H.
Qed.

Lemma get_slide_file_raise_msg (folder name : string) (e : exn) :
  get_slide_file fs folder name = Raise e ->
  (isdir fs folder = false
   /\ e = SlideNotFoundError
            ("Could not find a slide folder at: " ++ folder ++ "!!!"))
  \/ e = SlideNotFoundError
           ("Could not find an mrxs slide file for: " ++ name ++ " in "
              ++ folder ++ "!!!").
Proof.
  unfold get_slide_file.
  destruct (isdir fs folder); simpl.
  - destruct (first_slide folder name (listdir fs folder));
      [discriminate | intros H; inversion H; auto].
  - intros H; inversion H; auto.
Qed.

Lemma get_patch_csv_raise_msg (patch_folder : string) (e : exn) :
  isdir fs patch_folder = true ->
  get_patch_csv_from_patch_folder fs patch_folder = Raise e ->
  e = PatchesNotFoundError
        ("Could not find extracted patches for the slide: " ++ patch_folder).
Proof.
  intros Hdir. unfold get_patch_csv_from_patch_folder. rewrite Hdir.
  destruct (exists_ fs _); [discriminate | intros H; now inversion H].
Qed.

(** Where an exception that leaves the [try] block comes from. *)
Lemma try_block_raised (name patch_folder : string) (st st' : frame)
    (e : exn) :
  try_block fs self lvl dim label name patch_folder st = (st', Some e) ->
  get_slide_file fs (slide_folder self) name = Raise e
  \/ (exists slide_path,
        get_slide_file fs (slide_folder self) name = Return slide_path
        /\ get_patch_csv_from_patch_folder fs patch_folder = Raise e)
  \/ (exists slide_path,
        get_slide_file fs (slide_folder self) name = Return slide_path
        /\ get_patch_csv_from_patch_folder fs patch_folder
           = Return (OsPath.join patch_folder "patches.csv")
        /\ raised (handle_labeled_patches fs
                     (OsPath.join patch_folder "patches.csv") lvl label)
           = Some e).
Proof.
  intros Htry.
  destruct (try_block_cases fs self lvl dim label name patch_folder st)
    as [(e' & H & Hwhy) | (slide_path & patch_file & Hs & Hp & H)];
    rewrite H in Htry; inversion Htry; subst.
  - destruct Hwhy as [Hr | Hr]; auto.
  - right; right. exists slide_path.
    pose proof (get_patch_csv_returns _ _ Hp) as Heq. subst patch_file.
    auto.
Qed.

Lemma try_block_warned (name patch_folder : string) (st : frame) :
  warned (fst (try_block fs self lvl dim label name patch_folder st))
  = warned st.
Proof.
  destruct (try_block_cases fs self lvl dim label name patch_folder st)
    as [(e' & H & _) | (slide_path & patch_file & _ & _ & H)];
    now rewrite H.
Qed.

End AssemblerErrors.

Lemma walker_entry_isdir (fs : filesystem) (project : string)
    (exclude : list string) (name patch_folder : string) :
  In (name, patch_folder)
     (yielded (get_patch_folders_in_project fs project exclude)) ->
  isdir fs project = true /\ isdir fs patch_folder = true.
Proof.
  unfold get_patch_folders_in_project.
  destruct (isdir fs project); simpl; [|intros []].
  intros Hin. apply walk_In in Hin. destruct Hin as (_ & _ & _ & Hd).
  split; [reflexivity | exact Hd].
Qed.

(** X15: the exceptions [list_patches] can raise, and where they come
    from.  It is [EmptyProjectError], and then the project folder is not
    a directory; or the project folder is a directory and the exception
    was raised by the extractor on the table [patches.csv] of a slide
    entry whose slide file was found, and it is the error of a failed
    read of that table or a [KeyError] for [level], [x] or [y]. *)
Theorem list_patches_raises_cases (fs : filesystem) (self : PathaiaHandler)
    (lvl : Z) (dim : Z * Z) (label : string) (e : exn) :
  list_patches fs self lvl dim label = Raise e ->
  (isdir fs (project_folder self) = false
   /\ e = EmptyProjectError
            ("Did not find any project at: " ++ project_folder self))
  \/ (isdir fs (project_folder self) = true
      /\ exists name patch_folder slide_path,
           In (name, patch_folder)
              (yielded (get_patch_folders_in_project fs (project_folder self)
                          default_exclude))
           /\ get_slide_file fs (slide_folder self) name = Return slide_path
           /\ get_patch_csv_from_patch_folder fs patch_folder
              = Return (OsPath.join patch_folder "patches.csv")
           /\ raised (handle_labeled_patches fs
                        (OsPath.join patch_folder "patches.csv") lvl label)
              = Some e
           /\ (e = ReadCsvError (OsPath.join patch_folder "patches.csv")
               \/ e = KeyError "level" \/ e = KeyError "x"
               \/ e = KeyError "y")).
Proof.
  unfold list_patches, run_list_patches, for_gen.
  destruct (for_each (slide_step fs self lvl dim label) _ empty_frame)
    as [st [e'|]] eqn:Hloop.
  - intros H; inversion H; subst e'. right.
    apply for_each_raised_In in Hloop.
    destruct Hloop as ([name patch_folder] & st0 & Hin & Hstep).
    destruct (walker_entry_isdir fs _ _ _ _ Hin) as [Hproject _].
    split; [exact Hproject|].
    unfold slide_step in Hstep.
    destruct (try_block fs self lvl dim label name patch_folder st0)
      as [st1 [e1|]] eqn:Htry; [|discriminate].
    destruct (caught e1) eqn:Hc; [discriminate|].
    inversion Hstep; subst.
    apply try_block_raised in Htry.
    destruct Htry as [Hr | [(sp & _ & Hr) | (sp & Hs & Hp & Hr)]].
    + apply get_slide_file_raises in Hr. destruct Hr as [msg ->].
      discriminate.
    + apply get_patch_csv_raises in Hr.
      destruct Hr as [msg [-> | ->]]; discriminate.
    + exists name, patch_folder, sp.
      split; [exact Hin | split; [exact Hs | split; [exact Hp|]]].
      split; [exact Hr|].
      apply handle_labeled_patches_raised_kinds in Hr.
      destruct Hr as [-> | [-> | [-> | [-> | ->]]]]; auto. discriminate.
  - unfold get_patch_folders_in_project.
    destruct (isdir fs (project_folder self)); simpl; [discriminate|].
    intros H; inversion H. auto.
Qed.

Lemma list_patches_raises_cases_witness :
  (isdir Sample.fs "/P/readme.txt" = false
   /\ EmptyProjectError "Did not find any project at: /P/readme.txt"
      = EmptyProjectError "Did not find any project at: /P/readme.txt")
  \/ isdir Sample.fs "/P/readme.txt" = true.
Proof.
  destruct (list_patches_raises_cases Sample.fs
              {| slide_folder := "/S"; project_folder := "/P/readme.txt" |}
              0%Z (256, 256)%Z "tumor"
              (EmptyProjectError "Did not find any project at: /P/readme.txt")
              eq_refl) as [H | [H _]].
  - left. exact H.
  - right. exact H.
Defined.

(** X16: every warning [list_patches] issues is about a slide entry the
    walker yielded, whose patch folder is a directory, and has one of
    four forms: the slide folder is not a directory; no slide file for
    the entry's name in the slide folder; no [patches.csv] in the entry's
    patch folder; or the label column is not in that table.  The walker
    yielding directories only, the message for a missing patch folder is
    never issued. *)
Theorem list_patches_warning_forms (fs : filesystem) (self : PathaiaHandler)
    (lvl : Z) (dim : Z * Z) (label : string) (w : string) :
  In w (list_patches_warnings fs self lvl dim label) ->
  exists name patch_folder,
    In (name, patch_folder)
       (yielded (get_patch_folders_in_project fs (project_folder self)
                   default_exclude))
    /\ isdir fs patch_folder = true
    /\ ((isdir fs (slide_folder self) = false
         /\ w = ("Could not find a slide folder at: " ++ slide_folder self
                   ++ "!!!")%string)
        \/ w = ("Could not find an mrxs slide file for: " ++ name ++ " in "
                  ++ slide_folder self ++ "!!!")%string
        \/ w = ("Could not find extracted patches for the slide: "
                  ++ patch_folder)%string
        \/ w = ("Column " ++ label ++ " does not exists in "
                  ++ OsPath.join patch_folder "patches.csv" ++ "!!!")%string).
Proof.
  set (entries := yielded (get_patch_folders_in_project fs
                             (project_folder self) default_exclude)).
  set (W := fun w : string =>
    exists name patch_folder,
      In (name, patch_folder) entries
      /\ isdir fs patch_folder = true
      /\ ((isdir fs (slide_folder self) = false
           /\ w = ("Could not find a slide folder at: " ++ slide_folder self
                     ++ "!!!")%string)
          \/ w = ("Could not find an mrxs slide file for: " ++ name ++ " in "
                    ++ slide_folder self ++ "!!!")%string
          \/ w = ("Could not find extracted patches for the slide: "
                    ++ patch_folder)%string
          \/ w = ("Column " ++ label ++ " does not exists in "
                    ++ OsPath.join patch_folder "patches.csv"
                    ++ "!!!")%string)).
  intros Hin.
  assert (Hall : Forall W (list_patches_warnings fs self lvl dim label)).
  { unfold list_patches_warnings, run_list_patches.
    rewrite for_gen_fst. fold entries.
    apply (for_each_invariant (fun st => Forall W (warned st))
             (fun entry => In entry entries));
      [|apply Forall_forall; auto | constructor].
    intros [name patch_folder] st Hentry Hst.
    destruct (walker_entry_isdir fs _ _ _ _ Hentry) as [_ Hdir].
    unfold slide_step.
    pose proof (try_block_warned fs self lvl dim label name patch_folder st)
      as Hw.
    destruct (try_block fs self lvl dim label name patch_folder st)
      as [st1 [e|]] eqn:Htry; simpl in Hw; [|simpl; now rewrite Hw].
    destruct (caught e) eqn:Hc; simpl; [|now rewrite Hw].
    rewrite Hw. apply Forall_app. split; [exact Hst|].
    constructor; [|constructor].
    exists name, patch_folder. split; [exact Hentry | split; [exact Hdir|]].
    apply try_block_raised in Htry.
    destruct Htry as [Hr | [(sp & _ & Hr) | (sp & _ & _ & Hr)]].
    - apply get_slide_file_raise_msg in Hr.
      destruct Hr as [[Hnd ->] | ->]; auto.
    - apply (get_patch_csv_raise_msg fs _ _ Hdir) in Hr. subst e. auto.
    - apply handle_labeled_patches_raised_kinds in Hr.
      destruct Hr as [-> | [-> | [-> | [-> | ->]]]]; try discriminate.
      auto 6. }
  rewrite Forall_forall in Hall. exact (Hall w Hin).
Qed.

Lemma list_patches_warning_forms_witness :
  exists name patch_folder,
    In (name, patch_folder)
       (yielded (get_patch_folders_in_project Sample.fs "/P"
                   default_exclude))
    /\ isdir Sample.fs patch_folder = true
    /\ ((isdir Sample.fs "/S" = false
         /\ "Could not find extracted patches for the slide: /P/slideB"
            = ("Could not find a slide folder at: " ++ "/S" ++ "!!!")%string)
        \/ "Could not find extracted patches for the slide: /P/slideB"
           = ("Could not find an mrxs slide file for: " ++ name ++ " in "
                ++ "/S" ++ "!!!")%string
        \/ "Could not find extracted patches for the slide: /P/slideB"
           = ("Could not find extracted patches for the slide: "
                ++ patch_folder)%string
        \/ "Could not find extracted patches for the slide: /P/slideB"
           = ("Column " ++ "tumor" ++ " does not exists in "
                ++ OsPath.join patch_folder "patches.csv" ++ "!!!")%string).
Proof.
  apply (list_patches_warning_forms Sample.fs Sample.handler 0%Z
           (256, 256)%Z "tumor"
           "Could not find extracted patches for the slide: /P/slideB").
  left. reflexivity.
Defined.

Lemma for_each_returns {A S : Type} (P : A -> Prop)
    (body : A -> S -> S * option exn) :
  (forall a st, P a -> snd (body a st) = None) ->
  forall xs st, Forall P xs -> snd (for_each body xs st) = None.
Proof.
  intros Hbody xs; induction xs as [|a xs IH]; intros st HP; simpl.
  - reflexivity.
  - inversion HP as [|? ? Ha Hxs]; subst.
    specialize (Hbody a st Ha).
    destruct (body a st) as [st' [e|]]; simpl in *; [discriminate|].
    now apply IH.
Qed.

(** On a table with the columns [level], [x] and [y] the extractor can
    only fail for want of the label column. *)
Lemma handle_labeled_patches_well_formed (fs : filesystem)
    (patch_file : string) (lvl : Z) (column : string) (df : DataFrame)
    (e : exn) :
  read_csv fs patch_file = Some df ->
  In "level" (columns df) -> In "x" (columns df) -> In "y" (columns df) ->
  raised (handle_labeled_patches fs patch_file lvl column) = Some e ->
  caught e = true.
Proof.
  intros Hread Hl Hx Hy.
  destruct (in_dec string_dec column (columns df)) as [Hc | Hc].
  - rewrite (handle_labeled_patches_complete fs patch_file lvl column df)
      by assumption.
    discriminate.
  - unfold handle_labeled_patches.
    rewrite Hread, (level_filter_returns df lvl Hl).
    destruct (Pandas.has_column _ column) eqn:Hhas.
    + apply has_column_In in Hhas. contradiction.
    + simpl. intros H; inversion H. reflexivity.
Qed.

(** X17: [list_patches] returns whenever the project folder is a
    directory and the tables it gets to read are well formed: if, for
    every slide entry whose slide file is found and whose patch folder
    holds [patches.csv], that table can be read and has the columns
    [level], [x] and [y], then the call ends with a pair of lists and
    raises nothing, be the label column there or not. *)
Theorem list_patches_returns (fs : filesystem) (self : PathaiaHandler)
    (lvl : Z) (dim : Z * Z) (label : string) :
  isdir fs (project_folder self) = true ->
  (forall name patch_folder slide_path,
     In (name, patch_folder)
        (yielded (get_patch_folders_in_project fs (project_folder self)
                    default_exclude)) ->
     get_slide_file fs (slide_folder self) name = Return slide_path ->
     exists_ fs (OsPath.join patch_folder "patches.csv") = true ->
     exists df,
       read_csv fs (OsPath.join patch_folder "patches.csv") = Some df
       /\ In "level" (columns df) /\ In "x" (columns df)
       /\ In "y" (columns df)) ->
  exists pl labs, list_patches fs self lvl dim label = Return (pl, labs).
Proof.
  intros Hproject Htables.
  set (entries := yielded (get_patch_folders_in_project fs
                             (project_folder self) default_exclude)) in *.
  assert (Hloop : snd (for_each (slide_step fs self lvl dim label) entries
                         empty_frame) = None).
  { apply (for_each_returns (fun entry => In entry entries));
      [|apply Forall_forall; auto].
    intros [name patch_folder] st Hentry. unfold slide_step.
    destruct (try_block fs self lvl dim label name patch_folder st)
      as [st1 [e|]] eqn:Htry; [|reflexivity].
    assert (Hc : caught e = true).
    { apply try_block_raised in Htry.
      destruct Htry as [Hr | [(sp & _ & Hr) | (sp & Hs & Hp & Hr)]].
      - apply get_slide_file_raises in Hr. now destruct Hr as [msg ->].
      - apply get_patch_csv_raises in Hr.
        now destruct Hr as [msg [-> | ->]].
      - assert (Hex : exists_ fs (OsPath.join patch_folder "patches.csv")
                      = true).
        { unfold get_patch_csv_from_patch_folder in Hp.
          destruct (isdir fs patch_folder); [|discriminate].
          destruct (exists_ fs _); [reflexivity | discriminate]. }
        destruct (Htables name patch_folder sp Hentry Hs Hex)
          as (df & Hread & Hl & Hx & Hy).
        eapply handle_labeled_patches_well_formed; eauto. }
    now rewrite Hc. }
  unfold list_patches, run_list_patches, for_gen. fold entries.
  destruct (for_each (slide_step fs self lvl dim label) entries empty_frame)
    as [st [e|]]; simpl in Hloop; [discriminate|].
  unfold entries, get_patch_folders_in_project. rewrite Hproject; simpl.
  eauto.
Qed.

Lemma list_patches_returns_witness :
  exists pl labs,
    list_patches Sample.fs_single Sample.handler 1 (64, 64)%Z "grade"
    = Return (pl, labs).
Proof.
  apply (list_patches_returns Sample.fs_single Sample.handler 1%Z
           (64, 64)%Z "grade").
  - reflexivity.
  - intros name patch_folder slide_path [H | []] _ _.
    inversion H; subst. exists Sample.tableA.
    split; [reflexivity | simpl; tauto].
Defined.

(* ------------------------------------------------------------------ *)
(** ** The assembler, slide entry by slide entry *)

Section AssemblerEntries.

Variable fs : filesystem.
Variable self : PathaiaHandler.
Variable lvl : Z.
Variable dim : Z * Z.
Variable label : string.

(** A turn of the loop adds to the two lists what the entry gives,
    however the turn ends. *)
Lemma slide_step_lists (entry : string * string) (st : frame) :
  patch_list (fst (slide_step fs self lvl dim label entry st))
  = patch_list st ++ entry_patches fs self lvl dim label entry
  /\ labels (fst (slide_step fs self lvl dim label entry st))
     = labels st ++ entry_labels fs self lvl label entry.
Proof.
  destruct entry as [name patch_folder].
  unfold slide_step, try_block, entry_patches, entry_labels. cbn [fst snd].
  destruct (get_slide_file fs (slide_folder self) name) as [slide_path|e].
  - destruct (get_patch_csv_from_patch_folder fs patch_folder)
      as [patch_file|e].
    + unfold for_gen. rewrite for_each_append_patch.
      destruct (raised (handle_labeled_patches fs patch_file lvl label))
        as [e|]; [destruct (caught e)|]; simpl; auto.
    + destruct (caught e); simpl; rewrite !app_nil_r; auto.
  - destruct (caught e); simpl; rewrite !app_nil_r; auto.
Qed.

(** The loop over slide entries, stopped or not: the two lists hold, after
    what they held, what the entries gone through gave, in order. *)
Lemma for_each_lists (entries : list (string * string)) (st : frame) :
  exists processed rest,
    entries = processed ++ rest
    /\ (snd (for_each (slide_step fs self lvl dim label) entries st) = None ->
        rest = [])
    /\ patch_list (fst (for_each (slide_step fs self lvl dim label)
                          entries st))
       = patch_list st
           ++ flat_map (entry_patches fs self lvl dim label) processed
    /\ labels (fst (for_each (slide_step fs self lvl dim label) entries st))
       = labels st ++ flat_map (entry_labels fs self lvl label) processed.
Proof.
  revert st; induction entries as [|entry entries IH]; intros st.
  - exists [], []. simpl. rewrite !app_nil_r. auto.
  - cbn [for_each].
    destruct (slide_step_lists entry st) as [Hp Hl].
    destruct (slide_step fs self lvl dim label entry st) as [st1 [e|]];
      cbn [fst snd] in *.
    + exists [entry], entries. simpl. rewrite !app_nil_r.
      split; [reflexivity | split; [discriminate | auto]].
    + destruct (IH st1) as (processed & rest & -> & Hrest & Hp' & Hl').
      exists (entry :: processed), rest. simpl.
      rewrite Hp', Hl', Hp, Hl, <- !app_assoc. auto.
Qed.

Lemma for_each_warned (entries : list (string * string)) (st : frame) :
  exists ws,
    warned (fst (for_each (slide_step fs self lvl dim label) entries st))
    = warned st ++ ws.
Proof.
  revert st; induction entries as [|entry entries IH]; intros st.
  - exists []. simpl. now rewrite app_nil_r.
  - cbn [for_each].
    destruct (slide_step_shift fs self lvl dim label entry st)
      as (_ & _ & Hw & _).
    destruct (slide_step fs self lvl dim label entry st) as [st1 [e|]];
      cbn [fst] in *.
    + eauto.
    + destruct (IH st1) as [ws Hws]. rewrite Hws, Hw, <- app_assoc. eauto.
Qed.

Lemma run_list_patches_loop :
  fst (run_list_patches fs self lvl dim label)
  = fst (for_each (slide_step fs self lvl dim label)
           (yielded (get_patch_folders_in_project fs (project_folder self)
                       default_exclude)) empty_frame)
  /\ (snd (run_list_patches fs self lvl dim label) = None ->
      snd (for_each (slide_step fs self lvl dim label)
             (yielded (get_patch_folders_in_project fs (project_folder self)
                         default_exclude)) empty_frame) = None).
Proof.
  unfold run_list_patches, for_gen.
  destruct (for_each _ _ empty_frame) as [st [e|]]; simpl; auto.
Qed.

Lemma entry_patches_fields (name patch_folder : string) (p : patch) :
  In p (entry_patches fs self lvl dim label (name, patch_folder)) ->
  get_slide_file fs (slide_folder self) name = Return (slide p)
  /\ level p = lvl /\ dimensions p = dim.
Proof.
  unfold entry_patches. cbn [fst snd].
  destruct (get_slide_file fs (slide_folder self) name) as [slide_path|e];
    [|intros []].
  destruct (get_patch_csv_from_patch_folder fs patch_folder)
    as [patch_file|e]; [|intros []].
  intros Hin. apply in_map_iff in Hin. destruct Hin as (t & <- & _).
  simpl. auto.
Qed.

(** A failing look-up, or an extractor that raises, makes the entry give
    nothing. *)
Lemma failed_entry_gives_nothing (name patch_folder : string) (e : exn) :
  get_slide_file fs (slide_folder self) name = Raise e
  \/ (exists slide_path,
        get_slide_file fs (slide_folder self) name = Return slide_path
        /\ get_patch_csv_from_patch_folder fs patch_folder = Raise e)
  \/ (exists slide_path patch_file,
        get_slide_file fs (slide_folder self) name = Return slide_path
        /\ get_patch_csv_from_patch_folder fs patch_folder
           = Return patch_file
        /\ raised (handle_labeled_patches fs patch_file lvl label)
           = Some e) ->
  entry_patches fs self lvl dim label (name, patch_folder) = []
  /\ entry_labels fs self lvl label (name, patch_folder) = [].
Proof.
  unfold entry_patches, entry_labels. cbn [fst snd].
  intros [H | [(sp & Hs & H) | (sp & pf & Hs & Hp & H)]].
  - rewrite H. auto.
  - rewrite Hs, H. auto.
  - rewrite Hs, Hp.
    destruct (handle_labeled_patches_outcome fs pf lvl label)
      as [[e0 Hg] | (df & _ & _ & _ & Hg)]; rewrite Hg in *;
      [auto | discriminate].
Qed.

End AssemblerEntries.


Lemma as_yielded_unchanged (df : DataFrame) (v : value) :
  Pandas.values_dtype (dtypes df) <> Float64 -> as_yielded df v = v.
Proof.
  intros Hd. unfold as_yielded.
  destruct (Pandas.values_dtype (dtypes df)); try reflexivity. now elim Hd.
Qed.

(** C8: the descriptors [list_patches] appends are, entry after entry in
    the order of the walk, those of the entries gone through (all of them
    when the call returns), and each descriptor an entry gives carries the
    slide file resolved for that very entry, the queried level and the
    pair of dimensions passed by the caller. *)
Theorem descriptor_fields (fs : filesystem) (self : PathaiaHandler)
    (lvl : Z) (dim : Z * Z) (label : string) :
  (forall st r,
     run_list_patches fs self lvl dim label = (st, r) ->
     exists processed rest,
       yielded (get_patch_folders_in_project fs (project_folder self)
                  default_exclude) = processed ++ rest
       /\ (r = None -> rest = [])
       /\ patch_list st
          = flat_map (entry_patches fs self lvl dim label) processed)
  /\ (forall pl labs,
        list_patches fs self lvl dim label = Return (pl, labs) ->
        pl = flat_map (entry_patches fs self lvl dim label)
               (yielded (get_patch_folders_in_project fs
                           (project_folder self) default_exclude)))
  /\ (forall name patch_folder p,
        In p (entry_patches fs self lvl dim label (name, patch_folder)) ->
        get_slide_file fs (slide_folder self) name = Return (slide p)
        /\ level p = lvl /\ dimensions p = dim).
Proof.
  assert (Hrun : forall st r,
     run_list_patches fs self lvl dim label = (st, r) ->
     exists processed rest,
       yielded (get_patch_folders_in_project fs (project_folder self)
                  default_exclude) = processed ++ rest
       /\ (r = None -> rest = [])
       /\ patch_list st
          = flat_map (entry_patches fs self lvl dim label) processed).
  { intros st r Hrun.
    destruct (run_list_patches_loop fs self lvl dim label) as [Hfst Hsnd].
    rewrite Hrun in Hfst, Hsnd. cbn [fst snd] in Hfst, Hsnd.
    destruct (for_each_lists fs self lvl dim label
                (yielded (get_patch_folders_in_project fs
                            (project_folder self) default_exclude))
                empty_frame)
      as (processed & rest & Heq & Hrest & Hp & _).
    exists processed, rest. rewrite <- Hfst in Hp.
    split; [exact Heq | split; [auto | exact Hp]]. }
  split; [exact Hrun | split].
  - intros pl labs Hret. unfold list_patches in Hret.
    destruct (run_list_patches fs self lvl dim label) as [st [e|]] eqn:Heq;
      [discriminate|].
    inversion Hret; subst.
    destruct (Hrun st None eq_refl) as (processed & rest & Hw & Hrest & Hp).
    rewrite (Hrest eq_refl), app_nil_r in Hw. now rewrite Hw.
  - apply entry_patches_fields.
Qed.

Lemma descriptor_fields_witness :
  [ {| slide := "/S/slideA.mrxs"; x := VInt 1; y := VInt 2;
       level := 0; dimensions := (256, 256)%Z |};
    {| slide := "/S/slideA.mrxs"; x := VInt 3; y := VInt 4;
       level := 0; dimensions := (256, 256)%Z |};
    {| slide := "/S/slideC.mrxs"; x := VInt 7; y := VInt 8;
       level := 0; dimensions := (256, 256)%Z |} ]
  = flat_map (entry_patches Sample.fs Sample.handler 0 (256, 256)%Z "x")
      (yielded (get_patch_folders_in_project Sample.fs "/P" default_exclude))
  /\ get_slide_file Sample.fs "/S" "slideC" = Return "/S/slideC.mrxs".
Proof.
  split.
  - eapply (proj1 (proj2 (descriptor_fields Sample.fs Sample.handler 0%Z
                            (256, 256)%Z "x"))).
    reflexivity.
  - apply (proj2 (proj2 (descriptor_fields Sample.fs Sample.handler 0%Z
                           (256, 256)%Z "x"))
             "slideC" "/P/slideC"
             {| slide := "/S/slideC.mrxs"; x := VInt 7; y := VInt 8;
                level := 0; dimensions := (256, 256)%Z |}).
    left. reflexivity.
Defined.

(** C1: a slide entry that fails is skipped by [list_patches].  When the
    entries the walker yields before it went through and, for the entry,
    the slide-file look-up, the patch-table look-up or the extraction
    raises [SlideNotFoundError], [PatchesNotFoundError] or
    [UnknownColumnError], the call goes on with the entries after it from
    the same two lists and one more warning, the message of the error:
    that warning is among those the call issues, the entry gives no
    descriptor and no label, and when the call returns its lists are
    those of the entries before followed by those of the entries
    after. *)
Theorem failed_slide_is_skipped (fs : filesystem) (self : PathaiaHandler)
    (lvl : Z) (dim : Z * Z) (label : string)
    (before after : list (string * string)) (name patch_folder : string)
    (st : frame) (e : exn) :
  get_patch_folders_in_project fs (project_folder self) default_exclude
  = Gen (before ++ (name, patch_folder) :: after) None ->
  for_each (slide_step fs self lvl dim label) before empty_frame
  = (st, None) ->
  per_slide_error e ->
  (get_slide_file fs (slide_folder self) name = Raise e
   \/ (exists slide_path,
         get_slide_file fs (slide_folder self) name = Return slide_path
         /\ get_patch_csv_from_patch_folder fs patch_folder = Raise e)
   \/ (exists slide_path patch_file,
         get_slide_file fs (slide_folder self) name = Return slide_path
         /\ get_patch_csv_from_patch_folder fs patch_folder
            = Return patch_file
         /\ raised (handle_labeled_patches fs patch_file lvl label)
            = Some e)) ->
  run_list_patches fs self lvl dim label
  = for_each (slide_step fs self lvl dim label) after
      {| patch_list := patch_list st; labels := labels st;
         warned := warned st ++ [str e] |}
  /\ In (str e) (list_patches_warnings fs self lvl dim label)
  /\ entry_patches fs self lvl dim label (name, patch_folder) = []
  /\ entry_labels fs self lvl label (name, patch_folder) = []
  /\ (forall pl labs,
        list_patches fs self lvl dim label = Return (pl, labs) ->
        pl = flat_map (entry_patches fs self lvl dim label) before
               ++ flat_map (entry_patches fs self lvl dim label) after
        /\ labs = flat_map (entry_labels fs self lvl label) before
                    ++ flat_map (entry_labels fs self lvl label) after).
Proof.
  intros Hwalk Hbefore Hkind Hfail.
  destruct (failed_entry_gives_nothing fs self lvl dim label name
              patch_folder e Hfail) as [Hnop Hnol].
  apply per_slide_error_caught in Hkind.
  set (st1 := {| patch_list := patch_list st; labels := labels st;
                 warned := warned st ++ [str e] |}).
  assert (Htry : exists st0,
            try_block fs self lvl dim label name patch_folder st
            = (st0, Some e)).
  { unfold try_block.
    destruct Hfail as [H | [(sp & Hs & H) | (sp & pf & Hs & Hp & H)]].
    - rewrite H. eauto.
    - rewrite Hs, H. eauto.
    - rewrite Hs, Hp. unfold for_gen.
      rewrite for_each_append_patch, H. eauto. }
  destruct Htry as [st0 Htry].
  assert (st0 = st) by (eapply try_block_caught; eauto). subst st0.
  assert (Hstep : slide_step fs self lvl dim label (name, patch_folder) st
                  = (st1, None)).
  { unfold slide_step. now rewrite Htry, Hkind. }
  assert (Hrun : run_list_patches fs self lvl dim label
                 = for_each (slide_step fs self lvl dim label) after st1).
  { unfold run_list_patches. rewrite Hwalk, for_gen_returned.
    rewrite for_each_app, Hbefore. cbn [for_each]. now rewrite Hstep. }
  split; [exact Hrun | split; [|split; [exact Hnop | split; [exact Hnol|]]]].
  - unfold list_patches_warnings. rewrite Hrun.
    destruct (for_each_warned fs self lvl dim label after st1) as [ws ->].
    apply in_or_app. left. apply in_or_app. right. now left.
  - intros pl labs Hret. unfold list_patches in Hret. rewrite Hrun in Hret.
    destruct (for_each_lists fs self lvl dim label after st1)
      as (processed & rest & Heq & Hrest & Hp & Hl).
    destruct (for_each_lists fs self lvl dim label before empty_frame)
      as (processed0 & rest0 & Heq0 & Hrest0 & Hp0 & Hl0).
    rewrite Hbefore in Hrest0, Hp0, Hl0. cbn [fst snd] in Hrest0, Hp0, Hl0.
    rewrite (Hrest0 eq_refl), app_nil_r in Heq0. subst processed0.
    destruct (for_each (slide_step fs self lvl dim label) after st1)
      as [st' [e'|]]; [discriminate|].
    cbn [fst snd] in Hrest, Hp, Hl.
    rewrite (Hrest eq_refl), app_nil_r in Heq. subst processed.
    inversion Hret; subst pl labs.
    rewrite Hp, Hl. unfold st1; cbn [patch_list labels].
    rewrite Hp0, Hl0. auto.
Qed.

Lemma failed_slide_is_skipped_witness :
  run_list_patches Sample.fs Sample.handler 0 (256, 256)%Z "tumor"
  = for_each (slide_step Sample.fs Sample.handler 0 (256, 256)%Z "tumor")
      [("slideC", "/P/slideC"); ("slideD", "/P/slideD")]
      {| patch_list :=
           [ {| slide := "/S/slideA.mrxs"; x := VInt 1; y := VInt 2;
                level := 0; dimensions := (256, 256)%Z |};
             {| slide := "/S/slideA.mrxs"; x := VInt 3; y := VInt 4;
                level := 0; dimensions := (256, 256)%Z |} ];
         labels := [VStr "yes"; VStr "no"];
         warned :=
           [] ++ [str (PatchesNotFoundError
                         "Could not find extracted patches for the slide: /P/slideB")] |}
  /\ In "Could not find extracted patches for the slide: /P/slideB"
        (list_patches_warnings Sample.fs Sample.handler 0 (256, 256)%Z
           "tumor").
Proof.
  destruct (failed_slide_is_skipped Sample.fs Sample.handler 0%Z
              (256, 256)%Z "tumor"
              [("slideA", "/P/slideA")]
              [("slideC", "/P/slideC"); ("slideD", "/P/slideD")]
              "slideB" "/P/slideB"
              {| patch_list :=
                   [ {| slide := "/S/slideA.mrxs"; x := VInt 1; y := VInt 2;
                        level := 0; dimensions := (256, 256)%Z |};
                     {| slide := "/S/slideA.mrxs"; x := VInt 3; y := VInt 4;
                        level := 0; dimensions := (256, 256)%Z |} ];
                 labels := [VStr "yes"; VStr "no"];
                 warned := [] |}
              (PatchesNotFoundError
                 "Could not find extracted patches for the slide: /P/slideB"))
    as (Hrun & Hwarn & _).
  - reflexivity.
  - reflexivity.
  - eexists. right; left. reflexivity.
  - right; left. exists "/S/slideB.mrxs". split; reflexivity.
  - split; [exact Hrun | exact Hwarn].
Defined.





(** X12: what one slide entry adds when its turn ends without an
    exception is either the rows of its table and no warning (its slide
    file and its table were found, the table was read, the extractor
    ended normally, and the descriptors and labels are those of the rows
    at the queried level, in table order, each value as the row series
    holds it), or no row at all and a single warning, the message of the
    [SlideNotFoundError], [PatchesNotFoundError] or [UnknownColumnError]
    that the slide-file look-up, the patch-table look-up or the extractor
    raised for the entry.  An entry never adds both. *)
Theorem slide_rows_or_warning (fs : filesystem) (self : PathaiaHandler)
    (lvl : Z) (dim : Z * Z) (label : string) (name patch_folder : string)
    (st' : frame) :
  slide_step fs self lvl dim label (name, patch_folder) empty_frame
  = (st', None) ->
  (warned st' = []
   /\ exists slide_path patch_file df,
        get_slide_file fs (slide_folder self) name = Return slide_path
        /\ get_patch_csv_from_patch_folder fs patch_folder = Return patch_file
        /\ read_csv fs patch_file = Some df
        /\ raised (handle_labeled_patches fs patch_file lvl label) = None
        /\ patch_list st'
           = map (descriptor_of df slide_path lvl dim) (rows_at_level df lvl)
        /\ labels st'
           = map (fun row => as_yielded df (field df label row))
               (rows_at_level df lvl))
  \/ (patch_list st' = [] /\ labels st' = []
      /\ exists e,
           per_slide_error e /\ warned st' = [str e]
           /\ (get_slide_file fs (slide_folder self) name = Raise e
               \/ (exists slide_path,
                     get_slide_file fs (slide_folder self) name
                     = Return slide_path
                     /\ get_patch_csv_from_patch_folder fs patch_folder
                        = Raise e)
               \/ (exists slide_path,
                     get_slide_file fs (slide_folder self) name
                     = Return slide_path
                     /\ get_patch_csv_from_patch_folder fs patch_folder
                        = Return (OsPath.join patch_folder "patches.csv")
                     /\ raised (handle_labeled_patches fs
                                  (OsPath.join patch_folder "patches.csv")
                                  lvl label) = Some e))).
Proof.
  unfold slide_step.
  destruct (try_block fs self lvl dim label name patch_folder empty_frame)
    as [st1 [e|]] eqn:Htry.
  - destruct (caught e) eqn:Hc; [|discriminate].
    intros H; inversion H; subst st'. right.
    pose proof (try_block_raised fs self lvl dim label _ _ _ _ _ Htry)
      as Hwhy.
    apply try_block_caught in Htry; [|exact Hc]. subst st1. simpl.
    split; [reflexivity | split; [reflexivity|]].
    exists e. split; [now apply per_slide_error_caught|].
    split; [reflexivity | exact Hwhy].
  - intros H; inversion H; subst st'. left.
    destruct (try_block_cases fs self lvl dim label name patch_folder
                empty_frame)
      as [(e & H' & _) | (slide_path & patch_file & Hs & Hp & H')];
      rewrite H' in Htry; inversion Htry as [[Hst Hraised]].
    destruct (handle_labeled_patches_outcome fs patch_file lvl label)
      as [[e0 Hg] | (df & Hread & Hl & Hc & Hg)]; rewrite Hg in *;
      [discriminate|].
    simpl. split; [reflexivity|].
    exists slide_path, patch_file, df. rewrite !map_map, Hg.
    repeat (split; [assumption || reflexivity|]). reflexivity.
Qed.

Lemma slide_rows_or_warning_witness :
  exists st',
    slide_step Sample.fs Sample.handler 0 (256, 256)%Z "tumor"
      ("slideC", "/P/slideC") empty_frame = (st', None)
    /\ (warned st' = []
        \/ exists e,
             warned st' = [str e]
             /\ (get_slide_file Sample.fs "/S" "slideC" = Raise e
                 \/ (exists slide_path,
                       get_slide_file Sample.fs "/S" "slideC"
                       = Return slide_path
                       /\ get_patch_csv_from_patch_folder Sample.fs
                            "/P/slideC" = Raise e)
                 \/ raised (handle_labeled_patches Sample.fs
                              (OsPath.join "/P/slideC" "patches.csv") 0
                              "tumor") = Some e)).
Proof.
  eexists. split; [reflexivity|].
  destruct (slide_rows_or_warning Sample.fs Sample.handler 0%Z (256, 256)%Z
              "tumor" "slideC" "/P/slideC" _ eq_refl)
    as [[Hw _] | (_ & _ & e & _ & Hw & Hwhy)].
  - left. exact Hw.
  - right. exists e. split; [exact Hw|].
    destruct Hwhy as [H | [H | (sp & _ & _ & H)]]; auto.
Defined.
